(** * ComwareLikeDevice: prompt pattern and system-view state machine

    A shallow embedding of [netdev/comware_like.py].  The coroutines of the
    class become computations in a state-and-exception monad over a
    [Session]; the SSH channel is a [Transport] whose traffic is recorded in
    the session's trace; the regular expression that [_set_base_prompt]
    builds is kept as the string the code formats and is given meaning by a
    parser and a backtracking matcher for the fragment of Python's [re]
    syntax that the template and [re.escape] can produce. *)

From Stdlib Require Import String Ascii List Bool Arith Lia.
Import ListNotations.
Open Scope string_scope.

(** ** Python strings *)

Module PyStr.

(** The line feed character, written ['\n'] in the source. *)
Definition LF : string := String (ascii_of_nat 10) "".

(** [s[1:-1]]: everything but the first and the last character. *)
Definition slice_1_m1 (s : string) : string :=
  substring 1 (String.length s - 2) s.

(** [s[:n]]: the first [n] characters, or all of [s] when it is shorter. *)
Definition slice_to (n : nat) (s : string) : string :=
  substring 0 n s.

(** [s[n:]]: what is left of [s] after its first [n] characters. *)
Definition slice_from (n : nat) (s : string) : string :=
  substring n (String.length s - n) s.

(** [all(p(c) for c in s)]. *)
Fixpoint all_chars (p : ascii -> bool) (s : string) : bool :=
  match s with
  | "" => true
  | String c s' => p c && all_chars p s'
  end.

(** [sep.join(parts)]. *)
Definition join (sep : string) (parts : list string) : string :=
  String.concat sep parts.

(** [s.startswith(p)]. *)
Fixpoint startswith (p s : string) : bool :=
  match p with
  | "" => true
  | String a p' =>
      match s with
      | "" => false
      | String b s' => (a =? b)%char && startswith p' s'
      end
  end.

(** [needle in hay] on strings: [needle] occurs as a substring. *)
Fixpoint contains (needle hay : string) : bool :=
  startswith needle hay
  || match hay with
     | "" => false
     | String _ hay' => contains needle hay'
     end.

(** [template.format(a, b, ...)] for templates whose replacement fields are
    all the automatic field [{}]; [{{] and [}}] stand for one brace.
    [None] is an exception of [str.format] (too few arguments, a lone
    brace) or a field with a name or a format spec, which this model does
    not interpret. *)
Fixpoint format (template : string) (args : list string) : option string :=
  match template with
  | "" => Some ""
  | String c t1 =>
      if (c =? "{")%char then
        match t1 with
        | String c1 t2 =>
            if (c1 =? "}")%char then
              match args with
              | a :: args' => option_map (append a) (format t2 args')
              | [] => None
              end
            else if (c1 =? "{")%char then
              option_map (String "{") (format t2 args)
            else None
        | "" => None
        end
      else if (c =? "}")%char then
        match t1 with
        | String c1 t2 =>
            if (c1 =? "}")%char then option_map (String "}") (format t2 args)
            else None
        | "" => None
        end
      else option_map (String c) (format t1 args)
  end.

(** The characters [re.escape] protects with a backslash
    (CPython's [_special_chars_map]). *)
Definition special_chars : string :=
  "()[]{}?*+-|^$\.&~# "
  ++ String (ascii_of_nat 9) (String (ascii_of_nat 10) (String (ascii_of_nat 13)
     (String (ascii_of_nat 11) (String (ascii_of_nat 12) "")))).

Fixpoint mem_char (c : ascii) (s : string) : bool :=
  match s with
  | "" => false
  | String d s' => (c =? d)%char || mem_char c s'
  end.

Definition is_special (c : ascii) : bool := mem_char c special_chars.

(** [re.escape(s)]. *)
Fixpoint escape (s : string) : string :=
  match s with
  | "" => ""
  | String c s' =>
      if is_special c then String "\" (String c (escape s'))
      else String c (escape s')
  end.

End PyStr.

(** ** Exceptions and outcomes *)

(** [ValueError] is what the class raises itself; [TransportError] stands for
    whatever the channel raises (a timeout, a lost connection);
    [FormatError] for an exception of [str.format]. *)
Inductive exn : Type :=
| ValueError (msg : string)
| TransportError (info : string)
| FormatError.

Inductive outcome (A : Type) : Type :=
| Ok (a : A)
| Raise (e : exn).
Arguments Ok {A} a.
Arguments Raise {A} e.

(** What the caller of a coroutine gets back as a value: an exception
    carries its own arguments and nothing of the callee's local variables. *)
Definition returned {A : Type} (r : outcome A) : option A :=
  match r with
  | Ok a => Some a
  | Raise _ => None
  end.

(** ** Sessions and the transport *)

(** One unit of traffic on the channel. *)
Inductive event : Type :=
| Wrote (text : string)
| ReadUnit (r : outcome string).

Definition is_write (e : event) : bool :=
  match e with
  | Wrote _ => true
  | ReadUnit _ => false
  end.

(** The instance attributes the class touches, the device at the other end
    of the channel, and the traffic so far. *)
Record Session (World : Type) : Type := mkSession {
  _host : string;
  _base_prompt : string;
  _base_pattern : string;
  dev : World;
  trace : list event
}.
Arguments mkSession {World}.
Arguments _host {World}.
Arguments _base_prompt {World}.
Arguments _base_pattern {World}.
Arguments dev {World}.
Arguments trace {World}.

Definition writes {World : Type} (s : Session World) : list event :=
  filter is_write (trace s).

(** Coroutines of the device classes. *)
Definition M (World A : Type) : Type :=
  Session World -> outcome A * Session World.

Definition ret {World A : Type} (a : A) : M World A :=
  fun s => (Ok a, s).

Definition raise {World A : Type} (e : exn) : M World A :=
  fun s => (Raise e, s).

Definition bind {World A B : Type} (m : M World A) (k : A -> M World B)
  : M World B :=
  fun s =>
    match m s with
    | (Ok a, s') => k a s'
    | (Raise e, s') => (Raise e, s')
    end.

Notation "x <- m ;; k" := (bind m (fun x => k))
  (at level 61, m at next level, right associativity).
Notation "m ;;; k" := (bind m (fun _ => k))
  (at level 61, right associativity).

(** The channel and the two pure helpers of [BaseDevice] that the class
    calls; [base.py] is not part of this development, so they are the
    operations of an interface. *)
Class Transport (World : Type) : Type := {
  stdin_write : string -> World -> World;
  read_until_prompt : World -> outcome string * World;
  _normalize_cmd : string -> string;
  _normalize_linefeeds : string -> string
}.

(** The session after the device moved to [w] and the channel carried
    [evs]; the attributes stay. *)
Definition moved {World : Type} (s : Session World) (w : World)
           (evs : list event) : Session World :=
  mkSession (_host s) (_base_prompt s) (_base_pattern s) w (trace s ++ evs)%list.

(** A coroutine that only talks on the channel: from the device's state it
    gives its result, the device's new state and the traffic it caused. *)
Definition Talk (World A : Type) : Type :=
  World -> outcome A * (World * list event).

Definition on_channel {World A : Type} (f : Talk World A) : M World A :=
  fun s =>
    match f (dev s) with
    | (r, (w, evs)) => (r, moved s w evs)
    end.

Section Channel.
Context {World : Type} `{Transport World}.

(** [self._stdin.write(text)] *)
Definition write (text : string) : M World unit :=
  fun s => (Ok tt, moved s (stdin_write text (dev s)) [Wrote text]).

(** [await self._read_until_prompt()] *)
Definition _read_until_prompt : M World string :=
  fun s =>
    match read_until_prompt (dev s) with
    | (r, w) => (r, moved s w [ReadUnit r])
    end.

(** The blank line of a probe: [self._normalize_cmd('\n')]. *)
Definition blank_line : string := _normalize_cmd PyStr.LF.

End Channel.

(** The two coroutines inherited from [BaseDevice]; both only talk on the
    channel. *)
Class BaseDevice (World : Type) `{Transport World} : Type := {
  base_find_prompt : Talk World string;
  base_send_config_set : option (list string) -> Talk World string
}.

Section Inherited.
Context {World : Type} `{BaseDevice World}.

(** [await self._find_prompt()] *)
Definition _find_prompt : M World string :=
  on_channel base_find_prompt.

(** [await super().send_config_set(config_commands=...)] *)
Definition super_send_config_set (config_commands : option (list string))
  : M World string :=
  on_channel (base_send_config_set config_commands).

End Inherited.

(** ** Class attributes *)

Record DeviceClass : Type := mkDeviceClass {
  _delimiter_list : list string;
  _delimiter_left_list : list string;
  _pattern : string;
  _disable_paging_command : string;
  _system_view_enter : string;
  _system_view_exit : string;
  _system_view_check : string
}.

Definition ComwareLikeDevice : DeviceClass := {|
  _delimiter_list := [">"; "]"];
  _delimiter_left_list := ["<"; "["];
  _pattern := "[{}]{}[\-\w]*[{}]";
  _disable_paging_command := "screen-length disable";
  _system_view_enter := "system-view";
  _system_view_exit := "return";
  _system_view_check := "]"
|}.

(** A subclass that overrides the two delimiter lists. *)
Definition with_delimiters (openers closers : list string) : DeviceClass := {|
  _delimiter_list := closers;
  _delimiter_left_list := openers;
  _pattern := _pattern ComwareLikeDevice;
  _disable_paging_command := _disable_paging_command ComwareLikeDevice;
  _system_view_enter := _system_view_enter ComwareLikeDevice;
  _system_view_exit := _system_view_exit ComwareLikeDevice;
  _system_view_check := _system_view_check ComwareLikeDevice
|}.

(** ** The methods of ComwareLikeDevice

    The calls of the logger are left out: they read [_host] and the values
    at hand and change neither the session nor the channel. *)

Section Methods.
Context {World : Type} `{BaseDevice World}.
Variable cls : DeviceClass.

(** The pattern string of [_set_base_prompt], as a function of the
    prompt that [_find_prompt] returned. *)
Definition build_pattern (prompt : string) : option string :=
  let base_prompt := PyStr.slice_1_m1 prompt in
  let delimiter_right := PyStr.join "|" (map PyStr.escape (_delimiter_list cls)) in
  let delimiter_left := PyStr.join "|" (map PyStr.escape (_delimiter_left_list cls)) in
  let base_prompt12 := PyStr.escape (PyStr.slice_to 12 base_prompt) in
  PyStr.format (_pattern cls) [delimiter_left; base_prompt12; delimiter_right].

Definition set_base_prompt_attr (p : string) : M World unit :=
  fun s => (Ok tt, mkSession (_host s) p (_base_pattern s) (dev s) (trace s)).

Definition set_base_pattern_attr (p : string) : M World unit :=
  fun s => (Ok tt, mkSession (_host s) (_base_prompt s) p (dev s) (trace s)).

Definition get_base_prompt : M World string :=
  fun s => (Ok (_base_prompt s), s).

Definition _set_base_prompt : M World string :=
  prompt <- _find_prompt ;;
  set_base_prompt_attr (PyStr.slice_1_m1 prompt) ;;;
  match build_pattern prompt with
  | None => raise FormatError
  | Some pattern =>
      set_base_pattern_attr pattern ;;;
      get_base_prompt
  end.

Definition _check_system_view : M World bool :=
  let check_string := _system_view_check cls in
  write (_normalize_cmd PyStr.LF) ;;;
  output <- _read_until_prompt ;;
  ret (PyStr.contains check_string output).

Definition _system_view : M World string :=
  let output := "" in
  let system_view_enter := _system_view_enter cls in
  in_view <- _check_system_view ;;
  if negb in_view then
    write (_normalize_cmd system_view_enter) ;;;
    text <- _read_until_prompt ;;
    let output := output ++ text in
    in_view' <- _check_system_view ;;
    if negb in_view' then raise (ValueError "Failed to enter to system view")
    else ret output
  else ret output.

Definition _exit_system_view : M World string :=
  let output := "" in
  let system_view_exit := _system_view_exit cls in
  in_view <- _check_system_view ;;
  if in_view then
    write (_normalize_cmd system_view_exit) ;;;
    text <- _read_until_prompt ;;
    let output := output ++ text in
    in_view' <- _check_system_view ;;
    if in_view' then raise (ValueError "Failed to exit from system view")
    else ret output
  else ret output.

Definition send_config_set (config_commands : option (list string))
           (exit_system_view : bool) : M World string :=
  match config_commands with
  | None => ret ""
  | Some _ =>
      output <- _system_view ;;
      delivered <- super_send_config_set config_commands ;;
      let output := output ++ delivered in
      output <- (if exit_system_view
                 then (left <- _exit_system_view ;; ret (output ++ left))
                 else ret output) ;;
      ret (_normalize_linefeeds output)
  end.

End Methods.

(** ** A simulated Comware device

    A concrete [Transport] and [BaseDevice] on which the methods run: a
    device with a hostname and a current view that echoes each line it is
    sent and answers with its prompt.  Whether it obeys the enter and the
    exit command is a switch, so that failed transitions can be run too. *)

Module Sim.

Record Device : Type := mkDevice {
  hostname : string;
  in_system_view : bool;
  obeys_enter : bool;
  obeys_exit : bool;
  echo : string
}.

Definition prompt_of (d : Device) : string :=
  if in_system_view d then "[" ++ hostname d ++ "]"
  else "<" ++ hostname d ++ ">".

Definition receive (text : string) (d : Device) : Device :=
  let view :=
    if (text =? "system-view" ++ PyStr.LF) && obeys_enter d then true
    else if (text =? "return" ++ PyStr.LF) && obeys_exit d then false
    else in_system_view d in
  mkDevice (hostname d) view (obeys_enter d) (obeys_exit d) text.

Definition answer (d : Device) : outcome string * Device :=
  (Ok (echo d ++ prompt_of d),
   mkDevice (hostname d) (in_system_view d) (obeys_enter d) (obeys_exit d) "").

Definition is_space (c : ascii) : bool :=
  PyStr.mem_char c
    (" " ++ String (ascii_of_nat 9) (String (ascii_of_nat 10) (String (ascii_of_nat 13)
       (String (ascii_of_nat 11) (String (ascii_of_nat 12) ""))))).

Fixpoint lstrip (s : string) : string :=
  match s with
  | "" => ""
  | String c s' => if is_space c then lstrip s' else s
  end.

Fixpoint rstrip (s : string) : string :=
  match s with
  | "" => ""
  | String c s' =>
      let r := rstrip s' in
      if is_space c && (r =? "") then "" else String c r
  end.

Fixpoint rstrip_lf (s : string) : string :=
  match s with
  | "" => ""
  | String c s' =>
      let r := rstrip_lf s' in
      if (c =? ascii_of_nat 10)%char && (r =? "") then "" else String c r
  end.

(** Modelled from the spec: [NormalizeCommand] of the transport, which
    is [BaseDevice._normalize_cmd] in [base.py]; it ends the command with
    the one line terminator the device expects. *)
Definition normalize_cmd (command : string) : string :=
  rstrip_lf command ++ PyStr.LF.

(** Modelled from the spec: [NormalizeLineFeeds] of the transport, which
    is [BaseDevice._normalize_linefeeds] in [base.py]; the line endings
    CR CR LF, CR LF and LF CR become LF. *)
Fixpoint normalize_linefeeds (s : string) : string :=
  let cr := ascii_of_nat 13 in
  let lf := ascii_of_nat 10 in
  match s with
  | "" => ""
  | String a s1 =>
      match s1 with
      | String b s2 =>
          if (a =? cr)%char && (b =? lf)%char then String lf (normalize_linefeeds s2)
          else if (a =? lf)%char && (b =? cr)%char then String lf (normalize_linefeeds s2)
          else
            match s2 with
            | String c s3 =>
                if (a =? cr)%char && (b =? cr)%char && (c =? lf)%char
                then String lf (normalize_linefeeds s3)
                else String a (normalize_linefeeds s1)
            | "" => String a (normalize_linefeeds s1)
            end
      | "" => String a ""
      end
  end.

#[global] Instance transport : Transport Device := {|
  stdin_write := receive;
  read_until_prompt := answer;
  _normalize_cmd := normalize_cmd;
  _normalize_linefeeds := normalize_linefeeds
|}.

(** Modelled from the spec: [FindPrompt] of the transport, which is
    [BaseDevice._find_prompt] in [base.py]; one blank line is sent and the
    text that comes back, without the surrounding white space, is the raw
    prompt. *)
Definition find_prompt : M Device string :=
  write (normalize_cmd PyStr.LF) ;;;
  text <- _read_until_prompt ;;
  let prompt := rstrip (lstrip text) in
  if (prompt =? "") then raise (ValueError "Unable to find prompt")
  else ret prompt.

Fixpoint deliver (commands : list string) (output : string) : M Device string :=
  match commands with
  | [] => ret output
  | cmd :: rest =>
      write (normalize_cmd cmd) ;;;
      text <- _read_until_prompt ;;
      deliver rest (output ++ text)
  end.

(** Modelled from the spec: the generic command delivery, which is
    [BaseDevice.send_config_set] in [base.py]; the commands are written
    in order, each followed by one read, and the text read is returned. *)
Definition generic_send_config_set (config_commands : option (list string))
  : M Device string :=
  match config_commands with
  | None => ret ""
  | Some commands =>
      output <- deliver commands "" ;;
      ret (normalize_linefeeds output)
  end.

(** A coroutine run from a given state of the device, with its traffic. *)
Definition talk {A : Type} (m : M Device A) : Talk Device A :=
  fun w =>
    match m (mkSession "" "" "" w []) with
    | (r, s) => (r, (dev s, trace s))
    end.

#[global] Instance base_device : BaseDevice Device := {|
  base_find_prompt := talk find_prompt;
  base_send_config_set := fun commands => talk (generic_send_config_set commands)
|}.

(** A fresh session on a device. *)
Definition session (d : Device) : Session Device :=
  mkSession "192.0.2.1" "" "" d [].

(** A fresh session on a device in user view. *)
Definition connect (name : string) (enter_ok exit_ok : bool) : Session Device :=
  session (mkDevice name false enter_ok exit_ok "").

(** A fresh session on a device that is in system view already. *)
Definition connect_in_system_view (name : string) : Session Device :=
  session (mkDevice name true true true "").

End Sim.

(** ** Regular expressions

    The pattern of [_set_base_prompt] is a string, and Python's [re] module
    gives it its meaning when the reader of the channel calls
    [re.search(pattern, output)].  This module interprets the fragment of
    the [re] syntax that the template [_pattern] and the output of
    [re.escape] stay in: literal characters, backslash escapes of
    non-alphanumeric characters, [\w], character sets without ranges, and
    the star.  Characters are code points below 256. *)

Module Re.

Inductive token : Type :=
| TChar (c : ascii)
| TEsc (c : ascii).

(** A backslash takes the next character with it; at the end of the
    pattern it is an error. *)
Fixpoint tokens (p : string) : option (list token) :=
  match p with
  | "" => Some []
  | String c p1 =>
      if (c =? "\")%char then
        match p1 with
        | String e p2 => option_map (cons (TEsc e)) (tokens p2)
        | "" => None
        end
      else option_map (cons (TChar c)) (tokens p1)
  end.

Inductive member : Type :=
| MChar (c : ascii)
| MWord.

Inductive atom : Type :=
| Lit (c : ascii)
| CharSet (negated : bool) (members : list member).

Inductive piece : Type :=
| One (a : atom)
| Star (a : atom).

Definition regex : Type := list piece.

Definition between (lo hi n : nat) : bool := ((lo <=? n) && (n <=? hi))%nat.

Definition is_ascii_alnum (c : ascii) : bool :=
  let n := nat_of_ascii c in
  between 48 57 n || between 65 90 n || between 97 122 n.

(** [\w] on a [str] pattern: alphanumeric in the Unicode database, or the
    underscore. *)
Definition is_word (c : ascii) : bool :=
  let n := nat_of_ascii c in
  is_ascii_alnum c || Nat.eqb n 95
  || Nat.eqb n 170 || Nat.eqb n 178 || Nat.eqb n 179 || Nat.eqb n 181
  || Nat.eqb n 185 || Nat.eqb n 186 || between 188 190 n
  || between 192 214 n || between 216 246 n || between 248 255 n.

(** Characters that are operators outside a set.  The fragment has a
    meaning for the star only, after an atom. *)
Definition is_meta (c : ascii) : bool := PyStr.mem_char c ".^$*+?{()|".

Definition top_escape (c : ascii) : option atom :=
  if (c =? "w")%char then Some (CharSet false [MWord])
  else if is_ascii_alnum c then None
  else Some (Lit c).

Definition set_escape (c : ascii) : option member :=
  if (c =? "w")%char then Some MWord
  else if is_ascii_alnum c then None
  else Some (MChar c).

Inductive mode : Type :=
| Top
| InSet (negated : bool) (acc : list member).

Inductive action : Type :=
| Reject
| Emit (a : atom)
| Enter (m : mode)
| Skip (m : mode).

Definition is_hyphen (t : option token) : bool :=
  match t with
  | Some (TChar c) => (c =? "-")%char
  | _ => false
  end.

Definition is_caret (t : option token) : bool :=
  match t with
  | Some (TChar c) => (c =? "^")%char
  | _ => false
  end.

(** What the parser does with token [t] in mode [m] when [next] follows.
    In a set, an unescaped hyphen after a member would start a range (or
    end the set), which the fragment leaves out; a closing bracket is a
    member while the set is empty. *)
Definition step (m : mode) (t : token) (next : option token) : action :=
  match m with
  | Top =>
      match t with
      | TChar c =>
          if (c =? "[")%char then
            if is_caret next then Skip (InSet true []) else Enter (InSet false [])
          else if is_meta c then Reject
          else Emit (Lit c)
      | TEsc c =>
          match top_escape c with
          | Some a => Emit a
          | None => Reject
          end
      end
  | InSet negated acc =>
      let add (mb : member) :=
        if is_hyphen next then Reject else Enter (InSet negated (mb :: acc)) in
      match t with
      | TChar c =>
          if (c =? "]")%char && negb (Nat.eqb (List.length acc) 0)
          then Emit (CharSet negated (rev acc))
          else add (MChar c)
      | TEsc c =>
          match set_escape c with
          | Some mb => add mb
          | None => Reject
          end
      end
  end.

Fixpoint parse (m : mode) (ts : list token) {struct ts} : option regex :=
  match ts with
  | [] =>
      match m with
      | Top => Some []
      | InSet _ _ => None
      end
  | t :: ts1 =>
      match step m t (hd_error ts1) with
      | Reject => None
      | Emit a =>
          match ts1 with
          | TChar d :: ts2 =>
              if (d =? "*")%char then option_map (cons (Star a)) (parse Top ts2)
              else option_map (cons (One a)) (parse Top ts1)
          | _ => option_map (cons (One a)) (parse Top ts1)
          end
      | Enter m' => parse m' ts1
      | Skip m' =>
          match ts1 with
          | _ :: ts2 => parse m' ts2
          | [] => None
          end
      end
  end.

(** The continuation of [parse] once an atom is complete: a star that
    follows binds to it. *)
Definition emit (a : atom) (ts1 : list token) : option regex :=
  match ts1 with
  | TChar d :: ts2 =>
      if (d =? "*")%char then option_map (cons (Star a)) (parse Top ts2)
      else option_map (cons (One a)) (parse Top ts1)
  | _ => option_map (cons (One a)) (parse Top ts1)
  end.

(** The characters of the set [[\-\w]] of the template. *)
Definition hyphen_or_word (c : ascii) : bool :=
  (c =? "-")%char || is_word c.

(** [re.compile(pattern)]; [None] when the pattern is not accepted or is
    outside the fragment. *)
Definition compile (pattern : string) : option regex :=
  match tokens pattern with
  | Some ts => parse Top ts
  | None => None
  end.

Definition member_matches (m : member) (c : ascii) : bool :=
  match m with
  | MChar d => (c =? d)%char
  | MWord => is_word c
  end.

Definition atom_matches (a : atom) (c : ascii) : bool :=
  match a with
  | Lit d => (c =? d)%char
  | CharSet negated ms => xorb negated (existsb (fun m => member_matches m c) ms)
  end.

(** Does some prefix of the string match the whole expression? *)
Fixpoint match_here (r : regex) : string -> bool :=
  match r with
  | [] => fun _ => true
  | One a :: r' =>
      fun s =>
        match s with
        | "" => false
        | String c s' => atom_matches a c && match_here r' s'
        end
  | Star a :: r' =>
      fix star (s : string) : bool :=
        match_here r' s
        || match s with
           | "" => false
           | String c s' => atom_matches a c && star s'
           end
  end.

Fixpoint search_from (r : regex) (s : string) : bool :=
  match_here r s
  || match s with
     | "" => false
     | String _ s' => search_from r s'
     end.

(** [bool(re.search(pattern, s))] *)
Definition search (pattern s : string) : option bool :=
  option_map (fun r => search_from r s) (compile pattern).

End Re.


(** ** Notions used in the statements *)

Section TraceGrowth.
Context {World : Type}.

(** [m] leaves the attributes alone and appends its traffic. *)
Definition extends {A : Type} (m : M World A) : Prop :=
  forall s, exists w evs, snd (m s) = moved s w evs.

(** The first thing [m] does on the channel is to write [text]. *)
Definition writes_first {A : Type} (text : string) (m : M World A) : Prop :=
  forall s, exists w evs, snd (m s) = moved s w (Wrote text :: evs).

End TraceGrowth.

(** The token that [re.escape] makes of a character. *)
Definition escaped_token (c : ascii) : Re.token :=
  if PyStr.is_special c then Re.TEsc c else Re.TChar c.

Definition escaped_tokens (s : string) : list Re.token :=
  map escaped_token (list_ascii_of_string s).

(** The tokens of ["|".join(map(re.escape, ds))]. *)
Fixpoint joined_tokens (ds : list string) : list Re.token :=
  match ds with
  | [] => []
  | d :: ds' =>
      match ds' with
      | [] => escaped_tokens d
      | _ :: _ => escaped_tokens d ++ Re.TChar "|" :: joined_tokens ds'
      end
  end.

Definition token_char (t : Re.token) : ascii :=
  match t with
  | Re.TChar c => c
  | Re.TEsc c => c
  end.

(** Tokens that stand for themselves inside a set: an escaped special
    character, an unescaped ordinary one, or the bar of the join. *)
Definition plain_token (t : Re.token) : bool :=
  match t with
  | Re.TChar c => negb (PyStr.is_special c) || (c =? "|")%char
  | Re.TEsc c => PyStr.is_special c
  end.

Definition starts_with_star (ts : list Re.token) : bool :=
  match ts with
  | Re.TChar d :: _ => (d =? "*")%char
  | _ => false
  end.

(** The literal characters of [s], one after the other. *)
Definition literals (s : string) : Re.regex :=
  map (fun c => Re.One (Re.Lit c)) (list_ascii_of_string s).

(** The expression that the pattern of [_set_base_prompt] denotes: one
    character of [left], the text [h], any number of hyphens and word
    characters, one character of [right]. *)
Definition prompt_regex (left h right : string) : Re.regex :=
  Re.One (Re.CharSet false (map Re.MChar (list_ascii_of_string left)))
  :: literals h
  ++ [Re.Star (Re.CharSet false [Re.MChar "-"; Re.MWord]);
      Re.One (Re.CharSet false (map Re.MChar (list_ascii_of_string right)))].

(** Strings with a prompt in them: some character of [left], the text
    [h], hyphens and word characters, some character of [right]. *)
Definition prompt_like (left h right s : string) : Prop :=
  exists (pre : string) (l : ascii) (suf : string) (r : ascii) (post : string),
    s = pre ++ String l (h ++ suf ++ String r post)
    /\ PyStr.mem_char l left = true
    /\ PyStr.all_chars Re.hyphen_or_word suf = true
    /\ PyStr.mem_char r right = true.

(** The text that [build_pattern] gives with the template of the class. *)
Definition pattern_text (openers closers : list string) (h : string) : string :=
  "[" ++ PyStr.join "|" (map PyStr.escape openers) ++ "]"
  ++ PyStr.escape h ++ "[\-\w]*["
  ++ PyStr.join "|" (map PyStr.escape closers) ++ "]".


(** The attributes of [s'] are those of [s]. *)
Definition same_attributes {World : Type} (s s' : Session World) : Prop :=
  _host s' = _host s
  /\ _base_prompt s' = _base_prompt s
  /\ _base_pattern s' = _base_pattern s.

(** The ways through a verified change of view.  [check] is the check
    string, [cmd] the normalized command that changes the view, [blank]
    the blank line of the probe, [failure] the message of the error of a
    failed verification, and [target] what the probe gives in the view to
    be reached.  Each way relates the outcome of the method to its traffic. *)
Inductive transition_path (check cmd blank failure : string) (target : bool)
  : outcome string -> list event -> Prop :=
| path_probe_raised (e : exn) :
    transition_path check cmd blank failure target
      (Raise e) [Wrote blank; ReadUnit (Raise e)]
| path_already_there (t1 : string) :
    PyStr.contains check t1 = target ->
    transition_path check cmd blank failure target
      (Ok "") [Wrote blank; ReadUnit (Ok t1)]
| path_command_raised (t1 : string) (e : exn) :
    PyStr.contains check t1 = negb target ->
    transition_path check cmd blank failure target
      (Raise e)
      [Wrote blank; ReadUnit (Ok t1); Wrote cmd; ReadUnit (Raise e)]
| path_verification_raised (t1 t2 : string) (e : exn) :
    PyStr.contains check t1 = negb target ->
    transition_path check cmd blank failure target
      (Raise e)
      [Wrote blank; ReadUnit (Ok t1); Wrote cmd; ReadUnit (Ok t2);
       Wrote blank; ReadUnit (Raise e)]
| path_verified (t1 t2 t3 : string) :
    PyStr.contains check t1 = negb target ->
    PyStr.contains check t3 = target ->
    transition_path check cmd blank failure target
      (Ok t2)
      [Wrote blank; ReadUnit (Ok t1); Wrote cmd; ReadUnit (Ok t2);
       Wrote blank; ReadUnit (Ok t3)]
| path_not_verified (t1 t2 t3 : string) :
    PyStr.contains check t1 = negb target ->
    PyStr.contains check t3 = negb target ->
    transition_path check cmd blank failure target
      (Raise (ValueError failure))
      [Wrote blank; ReadUnit (Ok t1); Wrote cmd; ReadUnit (Ok t2);
       Wrote blank; ReadUnit (Ok t3)].

(** ** A device whose connection can drop

    The simulated device behind a channel that answers a given number of
    reads and raises on every read after that; the inherited coroutines are
    written once for any transport. *)

Section OnAnyTransport.
Context {World : Type} `{Transport World}.

Fixpoint deliver_each (commands : list string) (output : string)
  : M World string :=
  match commands with
  | [] => ret output
  | cmd :: rest =>
      write (_normalize_cmd cmd) ;;;
      text <- _read_until_prompt ;;
      deliver_each rest (output ++ text)
  end.

(** Modelled from the spec: the generic command delivery, which is
    [BaseDevice.send_config_set] in [base.py]; the commands are written in
    order, each followed by one read, and the text read is returned. *)
Definition deliver_commands (config_commands : option (list string))
  : M World string :=
  match config_commands with
  | None => ret ""
  | Some commands =>
      output <- deliver_each commands "" ;;
      ret (_normalize_linefeeds output)
  end.

(** Modelled from the spec: [FindPrompt] of the transport, which is
    [BaseDevice._find_prompt] in [base.py]; one blank line is sent and the
    text that comes back, without the surrounding white space, is the raw
    prompt. *)
Definition capture_prompt : M World string :=
  write (_normalize_cmd PyStr.LF) ;;;
  text <- _read_until_prompt ;;
  let prompt := Sim.rstrip (Sim.lstrip text) in
  if (prompt =? "") then raise (ValueError "Unable to find prompt")
  else ret prompt.

(** A coroutine run from a given state of the device, with its traffic. *)
Definition talk_of {A : Type} (m : M World A) : Talk World A :=
  fun w =>
    match m (mkSession "" "" "" w []) with
    | (r, s) => (r, (dev s, trace s))
    end.

End OnAnyTransport.

Module Flaky.

Record Device : Type := mkDevice {
  reads_left : nat;
  inner : Sim.Device
}.

Definition receive (text : string) (d : Device) : Device :=
  mkDevice (reads_left d) (Sim.receive text (inner d)).

Definition answer (d : Device) : outcome string * Device :=
  match reads_left d with
  | 0 => (Raise (TransportError "timeout"), d)
  | S n =>
      match Sim.answer (inner d) with
      | (r, i) => (r, mkDevice n i)
      end
  end.

#[global] Instance transport : Transport Device := {|
  stdin_write := receive;
  read_until_prompt := answer;
  _normalize_cmd := Sim.normalize_cmd;
  _normalize_linefeeds := Sim.normalize_linefeeds
|}.

#[global] Instance base_device : BaseDevice Device := {|
  base_find_prompt := talk_of capture_prompt;
  base_send_config_set := fun commands => talk_of (deliver_commands commands)
|}.

(** A fresh session on a device named [name], in user view or in system
    view, whose channel answers [n] reads. *)
Definition connect (n : nat) (name : string) (system_view : bool)
  : Session Device :=
  mkSession "192.0.2.1" "" ""
            (mkDevice n (Sim.mkDevice name system_view true true "")) [].

End Flaky.

(** * Properties *)

(** ** Substring test *)

Lemma startswith_spec (p s : string) :
  PyStr.startswith p s = true <-> exists post, s = p ++ post.
Proof.
  revert s; induction p as [|a p IH]; intros s; simpl.
  - split; [intros _; now exists s | reflexivity].
  - destruct s as [|b s].
    + split; [discriminate | intros [post E]; discriminate].
    + rewrite andb_true_iff, Ascii.eqb_eq, IH. split.
      * intros [-> [post ->]]. now exists post.
      * intros [post E]. injection E as -> ->. split; [reflexivity | now exists post].
Qed.

Lemma contains_spec (needle hay : string) :
  PyStr.contains needle hay = true <->
  exists pre post, hay = pre ++ needle ++ post.
Proof.
  induction hay as [|c hay IH]; simpl.
  - rewrite orb_false_r, startswith_spec. split.
    + intros [post E]. now exists "", post.
    + intros [pre [post E]]. destruct pre; [now exists post | discriminate].
  - rewrite orb_true_iff, startswith_spec, IH. split.
    + intros [[post E] | [pre [post E]]].
      * now exists "", post.
      * exists (String c pre), post. simpl. now rewrite E.
    + intros [pre [post E]]. destruct pre as [|d pre].
      * left. now exists post.
      * right. injection E as _ E. now exists pre, post.
Qed.

(** ** Runs of the mode methods *)

Create HintDb trace.

Lemma moved_moved {World : Type} (s : Session World) (w1 w2 : World)
      (e1 e2 : list event) :
  moved (moved s w1 e1) w2 e2 = moved s w2 (e1 ++ e2).
Proof. unfold moved; simpl. now rewrite app_assoc. Qed.

Section Runs.
Context {World : Type} `{BaseDevice World}.
Variable cls : DeviceClass.

Lemma check_system_view_run (s : Session World) (r : outcome string) (w : World) :
  read_until_prompt (stdin_write blank_line (dev s)) = (r, w) ->
  _check_system_view cls s =
    (match r with
     | Ok text => Ok (PyStr.contains (_system_view_check cls) text)
     | Raise e => Raise e
     end,
     moved s w [Wrote blank_line; ReadUnit r]).
Proof.
  intros E. unfold _check_system_view, bind, write, _read_until_prompt, ret.
  cbn [dev moved]. fold blank_line. rewrite E.
  destruct r; rewrite moved_moved; reflexivity.
Qed.



Lemma system_view_run (s : Session World) (t1 : string) (w1 : World) :
  read_until_prompt (stdin_write blank_line (dev s)) = (Ok t1, w1) ->
  (PyStr.contains (_system_view_check cls) t1 = true ->
   _system_view cls s = (Ok "", moved s w1 [Wrote blank_line; ReadUnit (Ok t1)]))
  /\
  (PyStr.contains (_system_view_check cls) t1 = false ->
   forall (t2 t3 : string) (w2 w3 : World),
     read_until_prompt
       (stdin_write (_normalize_cmd (_system_view_enter cls)) w1) = (Ok t2, w2) ->
     read_until_prompt (stdin_write blank_line w2) = (Ok t3, w3) ->
     _system_view cls s =
       (if PyStr.contains (_system_view_check cls) t3 then Ok t2
        else Raise (ValueError "Failed to enter to system view"),
        moved s w3
          [Wrote blank_line; ReadUnit (Ok t1);
           Wrote (_normalize_cmd (_system_view_enter cls)); ReadUnit (Ok t2);
           Wrote blank_line; ReadUnit (Ok t3)])).
Proof.
  intros E1. split.
  - intros C1. unfold _system_view. unfold bind at 1.
    rewrite (check_system_view_run s _ _ E1), C1. reflexivity.
  - intros C1 t2 t3 w2 w3 E2 E3. unfold _system_view. unfold bind at 1.
    rewrite (check_system_view_run s _ _ E1), C1. cbn [negb].
    unfold bind at 1. unfold write at 1. unfold bind at 1.
    unfold _read_until_prompt at 1. cbn [dev moved]. rewrite E2.
    unfold bind at 1.
    rewrite (check_system_view_run _ (Ok t3) w3) by (cbn [dev moved]; exact E3).
    rewrite !moved_moved. cbn [app].
    destruct (PyStr.contains (_system_view_check cls) t3); reflexivity.
Qed.


Lemma exit_system_view_run (s : Session World) (t1 : string) (w1 : World) :
  read_until_prompt (stdin_write blank_line (dev s)) = (Ok t1, w1) ->
  (PyStr.contains (_system_view_check cls) t1 = false ->
   _exit_system_view cls s = (Ok "", moved s w1 [Wrote blank_line; ReadUnit (Ok t1)]))
  /\
  (PyStr.contains (_system_view_check cls) t1 = true ->
   forall (t2 t3 : string) (w2 w3 : World),
     read_until_prompt
       (stdin_write (_normalize_cmd (_system_view_exit cls)) w1) = (Ok t2, w2) ->
     read_until_prompt (stdin_write blank_line w2) = (Ok t3, w3) ->
     _exit_system_view cls s =
       (if PyStr.contains (_system_view_check cls) t3
        then Raise (ValueError "Failed to exit from system view")
        else Ok t2,
        moved s w3
          [Wrote blank_line; ReadUnit (Ok t1);
           Wrote (_normalize_cmd (_system_view_exit cls)); ReadUnit (Ok t2);
           Wrote blank_line; ReadUnit (Ok t3)])).
Proof.
  intros E1. split.
  - intros C1. unfold _exit_system_view. unfold bind at 1.
    rewrite (check_system_view_run s _ _ E1), C1. reflexivity.
  - intros C1 t2 t3 w2 w3 E2 E3. unfold _exit_system_view. unfold bind at 1.
    rewrite (check_system_view_run s _ _ E1), C1.
    unfold bind at 1. unfold write at 1. unfold bind at 1.
    unfold _read_until_prompt at 1. cbn [dev moved]. rewrite E2.
    unfold bind at 1.
    rewrite (check_system_view_run _ (Ok t3) w3) by (cbn [dev moved]; exact E3).
    rewrite !moved_moved. cbn [app].
    destruct (PyStr.contains (_system_view_check cls) t3); reflexivity.
Qed.

(** *** Every method only adds to the trace *)

Lemma extends_ret {A : Type} (a : A) : extends (@ret World A a).
Proof.
  intros s. exists (dev s), []. unfold moved. rewrite app_nil_r. now destruct s.
Qed.

Lemma extends_raise {A : Type} (e : exn) : extends (@raise World A e).
Proof.
  intros s. exists (dev s), []. unfold moved. rewrite app_nil_r. now destruct s.
Qed.

Lemma extends_bind {A B : Type} (m : M World A) (k : A -> M World B) :
  extends m -> (forall a, extends (k a)) -> extends (bind m k).
Proof.
  intros Hm Hk s. unfold bind. destruct (Hm s) as [w [evs E]].
  destruct (m s) as [[a|e] s1]; simpl in E; subst s1.
  - destruct (Hk a (moved s w evs)) as [w' [evs' E']].
    exists w', (evs ++ evs')%list. now rewrite E', moved_moved.
  - now exists w, evs.
Qed.

Lemma writes_first_bind {A B : Type} (text : string) (m : M World A)
      (k : A -> M World B) :
  writes_first text m -> (forall a, extends (k a)) ->
  writes_first text (bind m k).
Proof.
  intros Hm Hk s. unfold bind. destruct (Hm s) as [w [evs E]].
  destruct (m s) as [[a|e] s1]; simpl in E; subst s1.
  - destruct (Hk a (moved s w (Wrote text :: evs))) as [w' [evs' E']].
    exists w', (evs ++ evs')%list. now rewrite E', moved_moved.
  - now exists w, evs.
Qed.

Lemma writes_first_write (text : string) : writes_first text (write text).
Proof. intros s. now exists (stdin_write text (dev s)), []. Qed.

Lemma extends_write (text : string) : extends (write text).
Proof. intros s. now exists (stdin_write text (dev s)), [Wrote text]. Qed.

Lemma extends_read : extends _read_until_prompt.
Proof.
  intros s. unfold _read_until_prompt.
  destruct (read_until_prompt (dev s)) as [r w]. now exists w, [ReadUnit r].
Qed.

Lemma extends_on_channel {A : Type} (f : Talk World A) : extends (on_channel f).
Proof.
  intros s. unfold on_channel. destruct (f (dev s)) as [r [w evs]].
  now exists w, evs.
Qed.

Lemma extends_if {A : Type} (b : bool) (m1 m2 : M World A) :
  extends m1 -> extends m2 -> extends (if b then m1 else m2).
Proof. now destruct b. Qed.

#[local] Hint Resolve extends_ret extends_raise extends_write extends_read
     extends_on_channel extends_if writes_first_write : trace.

Ltac trace_steps :=
  repeat first
    [ apply writes_first_bind; [ | intros ? ]
    | apply extends_bind; [ | intros ? ]
    | apply extends_if
    | solve [ auto with trace ] ].

Lemma check_system_view_writes_first :
  writes_first blank_line (_check_system_view cls).
Proof. unfold _check_system_view; trace_steps. Qed.

Lemma check_system_view_extends : extends (_check_system_view cls).
Proof. unfold _check_system_view, blank_line; trace_steps. Qed.

#[local] Hint Resolve check_system_view_writes_first check_system_view_extends : trace.

Lemma system_view_writes_first : writes_first blank_line (_system_view cls).
Proof. unfold _system_view; trace_steps. Qed.

Lemma exit_system_view_extends : extends (_exit_system_view cls).
Proof. unfold _exit_system_view; trace_steps. Qed.

#[local] Hint Resolve system_view_writes_first exit_system_view_extends : trace.

Lemma send_config_set_writes_first (commands : list string) (exit_after : bool) :
  writes_first blank_line (send_config_set cls (Some commands) exit_after).
Proof.
  unfold send_config_set, super_send_config_set; trace_steps.
Qed.

End Runs.

(** ** The mode probe *)

Section Probe.
Context {World : Type} `{BaseDevice World}.
Variable cls : DeviceClass.

(** C6. Whatever the channel answers, [_check_system_view] writes the
    normalized blank line once and reads once, in this order, and does
    nothing else; when the read gives text, the result is [true] exactly
    when the check string of the class occurs somewhere in that text, and
    when the read raises, the exception is passed on. *)
Theorem check_system_view_round_trip
        (s : Session World) (r : outcome string) (w : World) :
  read_until_prompt (stdin_write blank_line (dev s)) = (r, w) ->
  snd (_check_system_view cls s) = moved s w [Wrote blank_line; ReadUnit r]
  /\ match r with
     | Ok text =>
         exists b : bool,
           fst (_check_system_view cls s) = Ok b
           /\ (b = true <->
               exists pre post, text = pre ++ _system_view_check cls ++ post)
     | Raise e => fst (_check_system_view cls s) = Raise e
     end.
Proof.
  intros E. rewrite (check_system_view_run cls s r w E). split; [reflexivity|].
  destruct r as [text|e]; [|reflexivity].
  exists (PyStr.contains (_system_view_check cls) text).
  split; [reflexivity | apply contains_spec].
Qed.

End Probe.

(** The probe on a simulated device that is in system view. *)
Lemma check_system_view_round_trip_witness :
  let s := Sim.connect_in_system_view "sw1" in
  let w := Sim.mkDevice "sw1" true true true "" in
  let r := Ok (PyStr.LF ++ "[sw1]") in
  read_until_prompt (stdin_write blank_line (dev s)) = (r, w)
  /\ snd (_check_system_view ComwareLikeDevice s)
     = moved s w [Wrote blank_line; ReadUnit r]
  /\ exists b : bool,
       fst (_check_system_view ComwareLikeDevice s) = Ok b
       /\ (b = true <-> exists pre post, PyStr.LF ++ "[sw1]" = pre ++ "]" ++ post).
Proof.
  split; [reflexivity|].
  exact (check_system_view_round_trip ComwareLikeDevice
           (Sim.connect_in_system_view "sw1") _ _ eq_refl).
Defined.

(** ** Entering and leaving system view *)

Section Transitions.
Context {World : Type} `{BaseDevice World}.
Variable cls : DeviceClass.

(** C7. [_exit_system_view] first probes.  When the probe's text lacks the
    check string (user view), it returns the empty string and nothing but
    the probe went over the channel.  Otherwise it writes the normalized
    exit command, reads the answer, probes again, and raises
    [ValueError "Failed to exit from system view"] when the second probe
    still shows the check string; when it does not, the answer to the
    exit command is returned. *)
Theorem exit_system_view_verified
        (s : Session World) (t1 : string) (w1 : World) :
  read_until_prompt (stdin_write blank_line (dev s)) = (Ok t1, w1) ->
  (PyStr.contains (_system_view_check cls) t1 = false ->
   _exit_system_view cls s = (Ok "", moved s w1 [Wrote blank_line; ReadUnit (Ok t1)]))
  /\
  (PyStr.contains (_system_view_check cls) t1 = true ->
   forall (t2 t3 : string) (w2 w3 : World),
     read_until_prompt
       (stdin_write (_normalize_cmd (_system_view_exit cls)) w1) = (Ok t2, w2) ->
     read_until_prompt (stdin_write blank_line w2) = (Ok t3, w3) ->
     snd (_exit_system_view cls s) =
       moved s w3
         [Wrote blank_line; ReadUnit (Ok t1);
          Wrote (_normalize_cmd (_system_view_exit cls)); ReadUnit (Ok t2);
          Wrote blank_line; ReadUnit (Ok t3)]
     /\ (PyStr.contains (_system_view_check cls) t3 = true ->
         fst (_exit_system_view cls s) =
           Raise (ValueError "Failed to exit from system view"))
     /\ (PyStr.contains (_system_view_check cls) t3 = false ->
         fst (_exit_system_view cls s) = Ok t2)).
Proof.
  intros E1. destruct (exit_system_view_run cls s t1 w1 E1) as [Huser Hsys].
  split; [exact Huser|].
  intros C1 t2 t3 w2 w3 E2 E3. rewrite (Hsys C1 t2 t3 w2 w3 E2 E3).
  split; [reflexivity|]. split; intros ->; reflexivity.
Qed.

(** C3. When the first probe shows user view, the enter command is
    written, and the probe after it shows user view again, then
    [send_config_set] with a list of commands raises
    [ValueError "Failed to enter to system view"]; the channel carried the
    two probes and the enter command and nothing else, whatever the
    commands and whatever the inherited delivery would do. *)
Theorem send_config_set_enter_failure
        (commands : list string) (exit_after : bool) (s : Session World)
        (t1 t2 t3 : string) (w1 w2 w3 : World) :
  read_until_prompt (stdin_write blank_line (dev s)) = (Ok t1, w1) ->
  PyStr.contains (_system_view_check cls) t1 = false ->
  read_until_prompt
    (stdin_write (_normalize_cmd (_system_view_enter cls)) w1) = (Ok t2, w2) ->
  read_until_prompt (stdin_write blank_line w2) = (Ok t3, w3) ->
  PyStr.contains (_system_view_check cls) t3 = false ->
  send_config_set cls (Some commands) exit_after s =
    (Raise (ValueError "Failed to enter to system view"),
     moved s w3
       [Wrote blank_line; ReadUnit (Ok t1);
        Wrote (_normalize_cmd (_system_view_enter cls)); ReadUnit (Ok t2);
        Wrote blank_line; ReadUnit (Ok t3)]).
Proof.
  intros E1 C1 E2 E3 C3. unfold send_config_set. unfold bind at 1.
  destruct (system_view_run cls s t1 w1 E1) as [_ Huser].
  rewrite (Huser C1 t2 t3 w2 w3 E2 E3), C3. reflexivity.
Qed.

(** C4, amended. When the probe shows the check string (the device is in
    system view), [_system_view] returns the empty string, and the probe
    (one write of the normalized blank line, one read) is all that went
    over the channel: no enter command is written. *)
Theorem system_view_again_only_probes
        (s : Session World) (t1 : string) (w1 : World) :
  read_until_prompt (stdin_write blank_line (dev s)) = (Ok t1, w1) ->
  PyStr.contains (_system_view_check cls) t1 = true ->
  _system_view cls s = (Ok "", moved s w1 [Wrote blank_line; ReadUnit (Ok t1)]).
Proof.
  intros E1 C1. now apply (system_view_run cls s t1 w1 E1).
Qed.

(** C8, amended. When the first probe shows user view, [_system_view]
    writes the enter command, reads the answer and probes again.  If the
    second probe shows the check string, the answer to the enter command
    is returned; if it does not, the outcome is the exception
    [ValueError "Failed to enter to system view"], and no text comes back
    to the caller. *)
Theorem system_view_returns_text_on_success_only
        (s : Session World) (t1 t2 t3 : string) (w1 w2 w3 : World) :
  read_until_prompt (stdin_write blank_line (dev s)) = (Ok t1, w1) ->
  PyStr.contains (_system_view_check cls) t1 = false ->
  read_until_prompt
    (stdin_write (_normalize_cmd (_system_view_enter cls)) w1) = (Ok t2, w2) ->
  read_until_prompt (stdin_write blank_line w2) = (Ok t3, w3) ->
  (PyStr.contains (_system_view_check cls) t3 = true ->
   fst (_system_view cls s) = Ok t2
   /\ returned (fst (_system_view cls s)) = Some t2)
  /\
  (PyStr.contains (_system_view_check cls) t3 = false ->
   fst (_system_view cls s) = Raise (ValueError "Failed to enter to system view")
   /\ returned (fst (_system_view cls s)) = None).
Proof.
  intros E1 C1 E2 E3.
  destruct (system_view_run cls s t1 w1 E1) as [_ Huser].
  rewrite (Huser C1 t2 t3 w2 w3 E2 E3).
  split; intros ->; split; reflexivity.
Qed.

(** C1, amended. With no command list ([None]) [send_config_set] returns
    the empty string and leaves the session as it was: nothing is written
    or read.  With a list, the empty one included, the first thing on the
    channel is the written blank line of the probe. *)
Theorem send_config_set_absent_or_list :
  (forall (exit_after : bool) (s : Session World),
      send_config_set cls None exit_after s = (Ok "", s))
  /\
  (forall (commands : list string) (exit_after : bool) (s : Session World),
      exists w evs,
        snd (send_config_set cls (Some commands) exit_after s)
        = moved s w (Wrote blank_line :: evs)).
Proof.
  split.
  - reflexivity.
  - intros commands exit_after s.
    apply (send_config_set_writes_first cls commands exit_after s).
Qed.

End Transitions.

(** ** The methods on the simulated device *)

(** Leaving system view on a simulated device that ignores the exit command. *)
Lemma exit_system_view_verified_witness :
  let d := Sim.mkDevice "sw1" true true false "" in
  let s := Sim.session d in
  let t1 := PyStr.LF ++ "[sw1]" in
  let t2 := "return" ++ PyStr.LF ++ "[sw1]" in
  read_until_prompt (stdin_write blank_line (dev s)) = (Ok t1, d)
  /\ PyStr.contains "]" t1 = true
  /\ read_until_prompt (stdin_write (_normalize_cmd "return") d) = (Ok t2, d)
  /\ read_until_prompt (stdin_write blank_line d) = (Ok t1, d)
  /\ fst (_exit_system_view ComwareLikeDevice s)
     = Raise (ValueError "Failed to exit from system view").
Proof.
  do 4 (split; [reflexivity|]).
  exact (proj1 (proj2
           (proj2 (exit_system_view_verified ComwareLikeDevice
                     (Sim.session (Sim.mkDevice "sw1" true true false "")) _ _ eq_refl)
                  eq_refl _ _ _ _ eq_refl eq_refl))
           eq_refl).
Defined.

(** Two commands sent to a simulated device that ignores the enter command. *)
Lemma send_config_set_enter_failure_witness :
  let d := Sim.mkDevice "sw1" false false true "" in
  let s := Sim.connect "sw1" false true in
  let t1 := PyStr.LF ++ "<sw1>" in
  let t2 := "system-view" ++ PyStr.LF ++ "<sw1>" in
  read_until_prompt (stdin_write blank_line (dev s)) = (Ok t1, d)
  /\ PyStr.contains "]" t1 = false
  /\ read_until_prompt (stdin_write (_normalize_cmd "system-view") d) = (Ok t2, d)
  /\ read_until_prompt (stdin_write blank_line d) = (Ok t1, d)
  /\ send_config_set ComwareLikeDevice (Some ["vlan 10"; "quit"]) true s
     = (Raise (ValueError "Failed to enter to system view"),
        moved s d
          [Wrote blank_line; ReadUnit (Ok t1);
           Wrote (_normalize_cmd "system-view"); ReadUnit (Ok t2);
           Wrote blank_line; ReadUnit (Ok t1)]).
Proof.
  do 4 (split; [reflexivity|]).
  exact (send_config_set_enter_failure ComwareLikeDevice ["vlan 10"; "quit"] true
           (Sim.connect "sw1" false true) _ _ _ _ _ _
           eq_refl eq_refl eq_refl eq_refl eq_refl).
Defined.

(** C4, as stated, fails: after a first [_system_view] that succeeded, the
    second one returns the empty string but writes the blank line of its
    probe and reads the device's answer. *)
Lemma system_view_second_call_has_traffic :
  let first := _system_view ComwareLikeDevice (Sim.connect "sw1" true true) in
  let second := _system_view ComwareLikeDevice (snd first) in
  fst first = Ok ("system-view" ++ PyStr.LF ++ "[sw1]")
  /\ fst second = Ok ""
  /\ trace (snd second)
     = (trace (snd first)
        ++ [Wrote PyStr.LF; ReadUnit (Ok (PyStr.LF ++ "[sw1]")%string)])%list
  /\ trace (snd second) <> trace (snd first).
Proof.
  vm_compute. repeat split. discriminate.
Qed.

(** Entering system view on a simulated device that is there already. *)
Lemma system_view_again_only_probes_witness :
  let d := Sim.mkDevice "sw1" true true true "" in
  let s := Sim.connect_in_system_view "sw1" in
  let t1 := PyStr.LF ++ "[sw1]" in
  read_until_prompt (stdin_write blank_line (dev s)) = (Ok t1, d)
  /\ PyStr.contains "]" t1 = true
  /\ _system_view ComwareLikeDevice s
     = (Ok "", moved s d [Wrote blank_line; ReadUnit (Ok t1)]).
Proof.
  do 2 (split; [reflexivity|]).
  exact (system_view_again_only_probes ComwareLikeDevice
           (Sim.connect_in_system_view "sw1") _ _ eq_refl eq_refl).
Defined.

(** C8, as stated, fails: on a device that ignores the enter command,
    [_system_view] reads the answer to the command and then raises; the
    caller gets the exception with its fixed message and none of the text. *)
Lemma system_view_failure_returns_no_text :
  let run := _system_view ComwareLikeDevice (Sim.connect "sw1" false true) in
  In (ReadUnit (Ok ("system-view" ++ PyStr.LF ++ "<sw1>"))) (trace (snd run))
  /\ fst run = Raise (ValueError "Failed to enter to system view")
  /\ returned (fst run) = None
  /\ returned (fst run) <> Some ("system-view" ++ PyStr.LF ++ "<sw1>").
Proof.
  vm_compute. repeat split.
  - right; right; right; left; reflexivity.
  - discriminate.
Qed.

(** Entering system view on a simulated device that ignores the enter command. *)
Lemma system_view_returns_text_on_success_only_witness :
  let d := Sim.mkDevice "sw1" false false true "" in
  let s := Sim.connect "sw1" false true in
  let t1 := PyStr.LF ++ "<sw1>" in
  let t2 := "system-view" ++ PyStr.LF ++ "<sw1>" in
  read_until_prompt (stdin_write blank_line (dev s)) = (Ok t1, d)
  /\ PyStr.contains "]" t1 = false
  /\ read_until_prompt (stdin_write (_normalize_cmd "system-view") d) = (Ok t2, d)
  /\ read_until_prompt (stdin_write blank_line d) = (Ok t1, d)
  /\ fst (_system_view ComwareLikeDevice s)
     = Raise (ValueError "Failed to enter to system view")
  /\ returned (fst (_system_view ComwareLikeDevice s)) = None.
Proof.
  do 4 (split; [reflexivity|]).
  exact (proj2 (system_view_returns_text_on_success_only ComwareLikeDevice
                  (Sim.connect "sw1" false true) _ _ _ _ _ _
                  eq_refl eq_refl eq_refl eq_refl) eq_refl).
Defined.

(** C1, as stated, fails: with the empty list and [exit_system_view] set,
    the device is probed, taken into system view and back, which is six
    writes, and the text read on the way is returned. *)
Lemma send_config_set_empty_list_writes :
  let run := send_config_set ComwareLikeDevice (Some []) true
               (Sim.connect "sw1" true true) in
  writes (snd run)
  = [Wrote PyStr.LF; Wrote ("system-view" ++ PyStr.LF); Wrote PyStr.LF;
     Wrote PyStr.LF; Wrote ("return" ++ PyStr.LF); Wrote PyStr.LF]
  /\ fst run
     = Ok ("system-view" ++ PyStr.LF ++ "[sw1]" ++ "return" ++ PyStr.LF ++ "<sw1>")
  /\ ~ (writes (snd run) = [] /\ fst run = Ok "").
Proof.
  vm_compute. repeat split. intros [E _]. discriminate E.
Qed.

(** ** Strings *)

Lemma append_assoc (a b c : string) : (a ++ b) ++ c = a ++ (b ++ c).
Proof. induction a as [|x a IH]; simpl; [reflexivity | now rewrite IH]. Qed.

Lemma append_nil_r (a : string) : a ++ "" = a.
Proof. induction a as [|x a IH]; simpl; [reflexivity | now rewrite IH]. Qed.

Lemma length_append (a b : string) :
  String.length (a ++ b) = String.length a + String.length b.
Proof. induction a as [|x a IH]; simpl; [reflexivity | now rewrite IH]. Qed.

Lemma substring_0_append (h x : string) :
  substring 0 (String.length h) (h ++ x) = h.
Proof. induction h as [|c h IH]; simpl; [now destruct x | now rewrite IH]. Qed.

Lemma substring_0_length (s : string) : substring 0 (String.length s) s = s.
Proof. induction s as [|c s IH]; simpl; [reflexivity | now rewrite IH]. Qed.

(** Stripping the first and the last character of a delimited hostname
    gives the hostname. *)
Lemma slice_1_m1_delimited (d1 d2 : ascii) (h : string) :
  PyStr.slice_1_m1 (String d1 (h ++ String d2 "")) = h.
Proof.
  unfold PyStr.slice_1_m1. simpl. rewrite length_append. simpl.
  replace (String.length h + 1 - 1) with (String.length h) by lia.
  apply substring_0_append.
Qed.

Lemma slice_to_from (n : nat) (s : string) :
  s = PyStr.slice_to n s ++ PyStr.slice_from n s.
Proof.
  unfold PyStr.slice_to, PyStr.slice_from. revert n.
  induction s as [|c s IH]; intros [|n]; simpl; try reflexivity.
  - now rewrite substring_0_length.
  - now rewrite <- IH.
Qed.


Lemma slice_to_short (n : nat) (s : string) :
  String.length s <= n -> PyStr.slice_to n s = s.
Proof.
  unfold PyStr.slice_to. revert n.
  induction s as [|c s IH]; intros [|n] L; simpl in *; try reflexivity; try lia.
  rewrite IH by lia. reflexivity.
Qed.

Lemma slice_from_short (n : nat) (s : string) :
  String.length s <= n -> PyStr.slice_from n s = "".
Proof.
  intros L. pose proof (slice_to_from n s) as E.
  rewrite (slice_to_short n s L) in E.
  destruct (PyStr.slice_from n s) as [|c t]; [reflexivity|].
  exfalso. apply (f_equal String.length) in E. rewrite length_append in E.
  simpl in E. lia.
Qed.


Lemma mem_char_append (c : ascii) (a b : string) :
  PyStr.mem_char c (a ++ b) = PyStr.mem_char c a || PyStr.mem_char c b.
Proof.
  induction a as [|d a IH]; simpl; [reflexivity|].
  now rewrite IH, orb_assoc.
Qed.


(** ** Tokens of escaped text *)

Lemma special_not_backslash (c : ascii) :
  PyStr.is_special c = false -> (c =? "\")%char = false.
Proof.
  intros S. destruct (c =? "\")%char eqn:E; [|reflexivity].
  apply Ascii.eqb_eq in E. subst c. discriminate S.
Qed.

Lemma tokens_escape (s rest : string) :
  Re.tokens (PyStr.escape s ++ rest)
  = option_map (app (escaped_tokens s)) (Re.tokens rest).
Proof.
  induction s as [|c s IH]; simpl.
  - now destruct (Re.tokens rest).
  - unfold escaped_tokens. simpl. unfold escaped_token at 1.
    destruct (PyStr.is_special c) eqn:S; simpl.
    + rewrite IH. now destruct (Re.tokens rest).
    + rewrite (special_not_backslash c S), IH. now destruct (Re.tokens rest).
Qed.

Lemma tokens_join (ds : list string) (rest : string) :
  Re.tokens (PyStr.join "|" (map PyStr.escape ds) ++ rest)
  = option_map (app (joined_tokens ds)) (Re.tokens rest).
Proof.
  unfold PyStr.join. induction ds as [|d ds IH].
  - simpl. now destruct (Re.tokens rest).
  - destruct ds as [|d' ds].
    + simpl. apply tokens_escape.
    + change (String.concat "|" (map PyStr.escape (d :: d' :: ds)))
        with (PyStr.escape d ++ "|" ++ String.concat "|" (map PyStr.escape (d' :: ds))).
      rewrite append_assoc, tokens_escape.
      change (("|" ++ String.concat "|" (map PyStr.escape (d' :: ds))) ++ rest)
        with (String "|" (String.concat "|" (map PyStr.escape (d' :: ds)) ++ rest)).
      change (Re.tokens (String "|" ?x)) with (option_map (cons (Re.TChar "|")) (Re.tokens x)).
      rewrite IH.
      change (joined_tokens (d :: d' :: ds))
        with (escaped_tokens d ++ Re.TChar "|" :: joined_tokens (d' :: ds))%list.
      destruct (Re.tokens rest); simpl; [|reflexivity].
      now rewrite <- app_assoc.
Qed.

Lemma escaped_tokens_chars (s : string) :
  map token_char (escaped_tokens s) = list_ascii_of_string s.
Proof.
  unfold escaped_tokens. induction s as [|c s IH]; simpl; [reflexivity|].
  rewrite IH. unfold escaped_token. now destruct (PyStr.is_special c).
Qed.

Lemma list_ascii_append (a b : string) :
  list_ascii_of_string (a ++ b)
  = (list_ascii_of_string a ++ list_ascii_of_string b)%list.
Proof. induction a as [|c a IH]; simpl; [reflexivity | now rewrite IH]. Qed.

(** The characters of the joined escaped delimiters are those of the
    joined delimiters themselves. *)
Lemma joined_tokens_chars (ds : list string) :
  map token_char (joined_tokens ds) = list_ascii_of_string (PyStr.join "|" ds).
Proof.
  unfold PyStr.join. induction ds as [|d ds IH]; [reflexivity|].
  destruct ds as [|d' ds].
  - simpl. apply escaped_tokens_chars.
  - change (joined_tokens (d :: d' :: ds))
      with (escaped_tokens d ++ Re.TChar "|" :: joined_tokens (d' :: ds))%list.
    change (String.concat "|" (d :: d' :: ds))
      with (d ++ "|" ++ String.concat "|" (d' :: ds)).
    rewrite map_app, escaped_tokens_chars, list_ascii_append. f_equal.
    rewrite map_cons, IH. reflexivity.
Qed.

Lemma escaped_tokens_plain (s : string) :
  Forall (fun t => plain_token t = true) (escaped_tokens s).
Proof.
  unfold escaped_tokens. induction s as [|c s IH]; simpl; constructor; [|exact IH].
  unfold escaped_token. destruct (PyStr.is_special c) eqn:S; simpl; [exact S|].
  now rewrite S.
Qed.

Lemma joined_tokens_plain (ds : list string) :
  Forall (fun t => plain_token t = true) (joined_tokens ds).
Proof.
  induction ds as [|d ds IH]; [constructor|].
  destruct ds as [|d' ds].
  - apply escaped_tokens_plain.
  - change (joined_tokens (d :: d' :: ds))
      with (escaped_tokens d ++ Re.TChar "|" :: joined_tokens (d' :: ds))%list.
    apply Forall_app. split; [apply escaped_tokens_plain|].
    constructor; [reflexivity | exact IH].
Qed.

Lemma joined_tokens_nil (ds : list string) :
  joined_tokens ds = [] -> PyStr.join "|" ds = "".
Proof.
  intros E. pose proof (joined_tokens_chars ds) as C. rewrite E in C. simpl in C.
  destruct (PyStr.join "|" ds); [reflexivity | discriminate C].
Qed.

(** ** Parsing the pattern *)

Ltac each_char c := destruct c as [[] [] [] [] [] [] [] []].

Lemma plain_char_facts (c : ascii) :
  negb (PyStr.is_special c) || (c =? "|")%char = true ->
  (c =? "]")%char = false /\ (c =? "-")%char = false /\ (c =? "^")%char = false.
Proof.
  each_char c; vm_compute; intros E; try discriminate E; repeat split.
Qed.

Lemma special_char_escapes (c : ascii) :
  PyStr.is_special c = true ->
  Re.set_escape c = Some (Re.MChar c) /\ Re.top_escape c = Some (Re.Lit c).
Proof.
  each_char c; vm_compute; intros E; try discriminate E; split; reflexivity.
Qed.

Lemma ordinary_char_top (c : ascii) :
  PyStr.is_special c = false ->
  (c =? "[")%char = false /\ Re.is_meta c = false /\ (c =? "*")%char = false.
Proof.
  each_char c; vm_compute; intros E; try discriminate E; repeat split.
Qed.

Lemma parse_cons (m : Re.mode) (t : Re.token) (ts1 : list Re.token) :
  Re.parse m (t :: ts1)
  = match Re.step m t (hd_error ts1) with
    | Re.Reject => None
    | Re.Emit a => Re.emit a ts1
    | Re.Enter m' => Re.parse m' ts1
    | Re.Skip m' =>
        match ts1 with
        | _ :: ts2 => Re.parse m' ts2
        | [] => None
        end
    end.
Proof. reflexivity. Qed.

Lemma emit_one (a : Re.atom) (ts : list Re.token) :
  starts_with_star ts = false ->
  Re.emit a ts = option_map (cons (Re.One a)) (Re.parse Re.Top ts).
Proof.
  destruct ts as [|[d|d] ts]; simpl; intros E; try reflexivity.
  now rewrite E.
Qed.

Lemma plain_token_next (t : Re.token) :
  plain_token t = true ->
  Re.is_hyphen (Some t) = false /\ Re.is_caret (Some t) = false.
Proof.
  destruct t as [c|c]; simpl; [|now split].
  intros P. destruct (plain_char_facts c P) as [_ [Hh Hc]]. now split.
Qed.

Lemma step_set_plain (negated : bool) (acc : list Re.member) (t : Re.token)
      (next : option Re.token) :
  plain_token t = true -> Re.is_hyphen next = false ->
  Re.step (Re.InSet negated acc) t next
  = Re.Enter (Re.InSet negated (Re.MChar (token_char t) :: acc)).
Proof.
  intros P Hn. destruct t as [c|c]; simpl in *.
  - destruct (plain_char_facts c P) as [Hb _]. now rewrite Hb, Hn.
  - destruct (special_char_escapes c P) as [-> _]. now rewrite Hn.
Qed.

Lemma step_top_escaped (c : ascii) (next : option Re.token) :
  Re.step Re.Top (escaped_token c) next = Re.Emit (Re.Lit c).
Proof.
  unfold escaped_token. destruct (PyStr.is_special c) eqn:S; simpl.
  - now destruct (special_char_escapes c S) as [_ ->].
  - destruct (ordinary_char_top c S) as [-> [-> _]]. reflexivity.
Qed.

Lemma escaped_token_not_star (c : ascii) (ts : list Re.token) :
  starts_with_star (escaped_token c :: ts) = false.
Proof.
  unfold escaped_token. destruct (PyStr.is_special c) eqn:S; simpl; [reflexivity|].
  now destruct (ordinary_char_top c S) as [_ [_ ->]].
Qed.

(** Inside a set, plain tokens up to the closing bracket become the
    members of the set. *)
Lemma parse_set (negated : bool) (ts : list Re.token) :
  Forall (fun t => plain_token t = true) ts ->
  forall (acc : list Re.member) (rest : list Re.token),
    ts <> [] \/ acc <> [] ->
    Re.parse (Re.InSet negated acc) (ts ++ Re.TChar "]" :: rest)
    = Re.emit (Re.CharSet negated (rev acc ++ map Re.MChar (map token_char ts))) rest.
Proof.
  induction 1 as [|t ts P F IH]; intros acc rest NE.
  - destruct NE as [NE|NE]; [contradiction|].
    destruct acc as [|m acc]; [contradiction|].
    simpl app. rewrite parse_cons. simpl. now rewrite app_nil_r.
  - simpl app. rewrite parse_cons, step_set_plain; trivial.
    + rewrite IH by (right; discriminate). simpl. now rewrite <- app_assoc.
    + destruct ts as [|t' ts]; [reflexivity|].
      inversion_clear F. simpl. now apply plain_token_next.
Qed.

Lemma parse_open (ts rest : list Re.token) :
  Forall (fun t => plain_token t = true) ts -> ts <> [] ->
  Re.parse Re.Top (Re.TChar "[" :: ts ++ Re.TChar "]" :: rest)
  = Re.emit (Re.CharSet false (map Re.MChar (map token_char ts))) rest.
Proof.
  intros F NE. rewrite parse_cons.
  destruct ts as [|t ts]; [contradiction|].
  assert (Re.is_caret (Some t) = false) as C
      by (inversion_clear F; now apply plain_token_next).
  change (hd_error ((t :: ts) ++ Re.TChar "]" :: rest)) with (Some t).
  change (Re.step Re.Top (Re.TChar "[") (Some t))
    with (if Re.is_caret (Some t) then Re.Skip (Re.InSet true [])
          else Re.Enter (Re.InSet false [])).
  rewrite C. apply (parse_set false (t :: ts) F [] rest). left; discriminate.
Qed.

Lemma parse_literals (s : string) (rest : list Re.token) :
  starts_with_star rest = false ->
  Re.parse Re.Top (escaped_tokens s ++ rest)
  = option_map (app (literals s)) (Re.parse Re.Top rest).
Proof.
  intros NS. unfold escaped_tokens, literals.
  induction s as [|c s IH]; cbn [list_ascii_of_string map app].
  - now destruct (Re.parse Re.Top rest).
  - rewrite parse_cons, step_top_escaped, emit_one.
    + rewrite IH. now destruct (Re.parse Re.Top rest).
    + destruct s as [|c' s]; [exact NS | apply escaped_token_not_star].
Qed.

Lemma tokens_char (c : ascii) (rest : string) :
  (c =? "\")%char = false ->
  Re.tokens (String c rest) = option_map (cons (Re.TChar c)) (Re.tokens rest).
Proof. intros E. simpl. now rewrite E. Qed.

Lemma tokens_pattern (openers closers : list string) (h : string) :
  Re.tokens ("[" ++ PyStr.join "|" (map PyStr.escape openers) ++ "]"
             ++ PyStr.escape h ++ "[\-\w]*["
             ++ PyStr.join "|" (map PyStr.escape closers) ++ "]")
  = Some (Re.TChar "[" :: joined_tokens openers
          ++ Re.TChar "]" :: escaped_tokens h
          ++ Re.TChar "[" :: Re.TEsc "-" :: Re.TEsc "w" :: Re.TChar "]"
             :: Re.TChar "*" :: Re.TChar "[" :: joined_tokens closers
          ++ [Re.TChar "]"])%list.
Proof.
  cbn [append]. rewrite tokens_char by reflexivity.
  rewrite tokens_join, tokens_char by reflexivity.
  rewrite tokens_escape, tokens_char by reflexivity.
  change (Re.tokens (String "\" (String "-" ?x)))
    with (option_map (cons (Re.TEsc "-")) (Re.tokens x)).
  change (Re.tokens (String "\" (String "w" ?x)))
    with (option_map (cons (Re.TEsc "w")) (Re.tokens x)).
  rewrite !tokens_char by reflexivity.
  rewrite tokens_join. reflexivity.
Qed.

Lemma compile_pattern (openers closers : list string) (h : string) :
  PyStr.join "|" openers <> "" -> PyStr.join "|" closers <> "" ->
  Re.compile ("[" ++ PyStr.join "|" (map PyStr.escape openers) ++ "]"
              ++ PyStr.escape h ++ "[\-\w]*["
              ++ PyStr.join "|" (map PyStr.escape closers) ++ "]")
  = Some (prompt_regex (PyStr.join "|" openers) h (PyStr.join "|" closers)).
Proof.
  intros NL NR. unfold Re.compile. rewrite tokens_pattern.
  rewrite parse_open;
    [ | apply joined_tokens_plain
      | intros E; apply NL; now apply joined_tokens_nil ].
  rewrite emit_one.
  2:{ destruct h as [|c h]; [reflexivity | apply escaped_token_not_star]. }
  rewrite parse_literals by reflexivity.
  change (Re.parse Re.Top
            (Re.TChar "[" :: Re.TEsc "-" :: Re.TEsc "w" :: Re.TChar "]"
             :: Re.TChar "*" :: ?x))
    with (option_map (cons (Re.Star (Re.CharSet false [Re.MChar "-"; Re.MWord])))
            (Re.parse Re.Top x)).
  rewrite parse_open;
    [ | apply joined_tokens_plain
      | intros E; apply NR; now apply joined_tokens_nil ].
  rewrite !joined_tokens_chars. reflexivity.
Qed.

(** ** What the expression matches *)

Lemma match_here_one (a : Re.atom) (r : Re.regex) (s : string) :
  Re.match_here (Re.One a :: r) s
  = match s with
    | "" => false
    | String c s' => Re.atom_matches a c && Re.match_here r s'
    end.
Proof. reflexivity. Qed.

Lemma match_here_star (a : Re.atom) (r : Re.regex) (s : string) :
  Re.match_here (Re.Star a :: r) s
  = Re.match_here r s
    || match s with
       | "" => false
       | String c s' => Re.atom_matches a c && Re.match_here (Re.Star a :: r) s'
       end.
Proof. destruct s; reflexivity. Qed.

Lemma match_literals (h : string) (r : Re.regex) (s : string) :
  Re.match_here (literals h ++ r)%list s = true <->
  exists s', s = h ++ s' /\ Re.match_here r s' = true.
Proof.
  revert s. induction h as [|c h IH]; intros s.
  - simpl. split; [intros E; now exists s | now intros [s' [-> E]]].
  - change (literals (String c h) ++ r)%list
      with (Re.One (Re.Lit c) :: (literals h ++ r))%list.
    rewrite match_here_one. destruct s as [|d s].
    + split; [discriminate | intros [s' [E _]]; discriminate E].
    + simpl Re.atom_matches. rewrite andb_true_iff, Ascii.eqb_eq, IH. split.
      * intros [-> [s' [-> E]]]. now exists s'.
      * intros [s' [E1 E2]]. injection E1 as -> ->. split; [reflexivity | now exists s'].
Qed.

Lemma match_star (a : Re.atom) (r : Re.regex) (s : string) :
  Re.match_here (Re.Star a :: r) s = true <->
  exists suf s',
    s = suf ++ s' /\ PyStr.all_chars (Re.atom_matches a) suf = true
    /\ Re.match_here r s' = true.
Proof.
  induction s as [|c s IH]; rewrite match_here_star.
  - rewrite orb_false_r. split.
    + intros E. now exists "", "".
    + intros [suf [s' [E [_ M]]]]. destruct suf; [|discriminate E].
      simpl in E. now subst s'.
  - rewrite orb_true_iff, andb_true_iff, IH. split.
    + intros [M | [A [suf [s' [-> [S M]]]]]].
      * now exists "", (String c s).
      * exists (String c suf), s'. simpl. now rewrite A, S.
    + intros [suf [s' [E [S M]]]]. destruct suf as [|d suf].
      * simpl in E. subst s'. now left.
      * injection E as -> ->. simpl in S. apply andb_true_iff in S as [A S].
        right. split; [exact A | now exists suf, s'].
Qed.

Lemma match_last (a : Re.atom) (s : string) :
  Re.match_here [Re.One a] s = true <->
  exists c rest, s = String c rest /\ Re.atom_matches a c = true.
Proof.
  rewrite match_here_one. destruct s as [|c s].
  - split; [discriminate | intros [c [rest [E _]]]; discriminate E].
  - simpl Re.match_here. rewrite andb_true_r. split.
    + intros A. now exists c, s.
    + intros [d [rest [E A]]]. now injection E as -> ->.
Qed.

Lemma search_from_spec (r : Re.regex) (s : string) :
  Re.search_from r s = true <->
  exists pre s', s = pre ++ s' /\ Re.match_here r s' = true.
Proof.
  induction s as [|c s IH]; simpl Re.search_from.
  - rewrite orb_false_r. split.
    + intros M. now exists "", "".
    + intros [pre [s' [E M]]]. destruct pre; [|discriminate E].
      simpl in E. now subst s'.
  - rewrite orb_true_iff, IH. split.
    + intros [M | [pre [s' [-> M]]]].
      * now exists "", (String c s).
      * now exists (String c pre), s'.
    + intros [pre [s' [E M]]]. destruct pre as [|d pre].
      * simpl in E. subst s'. now left.
      * injection E as -> ->. right. now exists pre, s'.
Qed.

Lemma set_of_chars_matches (chars : string) (c : ascii) :
  Re.atom_matches (Re.CharSet false (map Re.MChar (list_ascii_of_string chars))) c
  = PyStr.mem_char c chars.
Proof.
  simpl. induction chars as [|d chars IH]; simpl; [reflexivity | now rewrite IH].
Qed.

Lemma suffix_set_matches (c : ascii) :
  Re.atom_matches (Re.CharSet false [Re.MChar "-"; Re.MWord]) c
  = Re.hyphen_or_word c.
Proof. unfold Re.hyphen_or_word. simpl. now rewrite orb_false_r. Qed.

Lemma all_chars_ext (p q : ascii -> bool) (s : string) :
  (forall c, p c = q c) -> PyStr.all_chars p s = PyStr.all_chars q s.
Proof.
  intros E. induction s as [|c s IH]; simpl; [reflexivity | now rewrite E, IH].
Qed.

Lemma search_prompt_regex (left h right s : string) :
  Re.search_from (prompt_regex left h right) s = true <->
  prompt_like left h right s.
Proof.
  unfold prompt_like, prompt_regex. rewrite search_from_spec. split.
  - intros [pre [s1 [-> M]]]. rewrite match_here_one in M.
    destruct s1 as [|l s1]; [discriminate M|].
    apply andb_true_iff in M as [L M]. rewrite set_of_chars_matches in L.
    apply match_literals in M as [s2 [-> M]].
    apply match_star in M as [suf [s3 [-> [S M]]]].
    apply match_last in M as [r [post [-> R]]].
    rewrite set_of_chars_matches in R.
    rewrite (all_chars_ext _ _ suf suffix_set_matches) in S.
    now exists pre, l, suf, r, post.
  - intros [pre [l [suf [r [post [-> [L [S R]]]]]]]].
    exists pre, (String l (h ++ suf ++ String r post)). split; [reflexivity|].
    rewrite match_here_one, set_of_chars_matches, L. simpl andb.
    apply match_literals. exists (suf ++ String r post). split; [reflexivity|].
    apply match_star. exists suf, (String r post). split; [reflexivity|]. split.
    + now rewrite (all_chars_ext _ _ suf suffix_set_matches).
    + apply match_last. exists r, post. split; [reflexivity|].
      now rewrite set_of_chars_matches.
Qed.

(** ** The pattern of a session *)

Lemma build_pattern_text (openers closers : list string) (prompt : string) :
  build_pattern (with_delimiters openers closers) prompt
  = Some (pattern_text openers closers
            (PyStr.slice_to 12 (PyStr.slice_1_m1 prompt))).
Proof. reflexivity. Qed.

Lemma search_pattern_text (openers closers : list string) (h s : string) :
  PyStr.join "|" openers <> "" -> PyStr.join "|" closers <> "" ->
  Re.search (pattern_text openers closers h) s
  = Some (Re.search_from
            (prompt_regex (PyStr.join "|" openers) h (PyStr.join "|" closers)) s).
Proof.
  intros NL NR. unfold Re.search, pattern_text.
  now rewrite compile_pattern.
Qed.

Lemma mem_char_join (d : ascii) (ds : list string) :
  In (String d "") ds -> PyStr.mem_char d (PyStr.join "|" ds) = true.
Proof.
  unfold PyStr.join. induction ds as [|x ds IH]; intros I; [contradiction|].
  destruct ds as [|y ds].
  - destruct I as [->|[]]. simpl. now rewrite Ascii.eqb_refl.
  - change (String.concat "|" (x :: y :: ds))
      with (x ++ "|" ++ String.concat "|" (y :: ds)).
    rewrite !mem_char_append. destruct I as [->|I].
    + simpl. now rewrite Ascii.eqb_refl.
    + rewrite (IH I). now rewrite !orb_true_r.
Qed.

Lemma mem_char_nonempty (d : ascii) (s : string) :
  PyStr.mem_char d s = true -> s <> "".
Proof. intros M ->. discriminate M. Qed.

Section PatternOfSession.
Context {World : Type} `{BaseDevice World}.

Lemma set_base_prompt_run (cls : DeviceClass) (s s1 : Session World)
      (prompt pattern : string) :
  _find_prompt s = (Ok prompt, s1) ->
  build_pattern cls prompt = Some pattern ->
  _set_base_prompt cls s
  = (Ok (PyStr.slice_1_m1 prompt),
     mkSession (_host s1) (PyStr.slice_1_m1 prompt) pattern (dev s1) (trace s1)).
Proof.
  intros F B. unfold _set_base_prompt. unfold bind at 1. rewrite F.
  unfold bind at 1. unfold set_base_prompt_attr at 1. rewrite B.
  reflexivity.
Qed.

Lemma set_base_prompt_raises (cls : DeviceClass) (s s1 : Session World) (e : exn) :
  _find_prompt s = (Raise e, s1) ->
  _set_base_prompt cls s = (Raise e, s1).
Proof.
  intros F. unfold _set_base_prompt. unfold bind at 1. now rewrite F.
Qed.

End PatternOfSession.

Section PatternClaims.
Context {World : Type} `{BaseDevice World}.

(** C5, amended. [_set_base_prompt] never compares the lengths of the two
    delimiter lists and has no error of its own for them: with any
    openers and closers, of equal lengths or not, it returns the stripped
    prompt whenever [_find_prompt] returns a prompt, and when
    [_find_prompt] raises, that exception is the outcome. *)
Theorem set_base_prompt_any_delimiters
        (openers closers : list string) (s : Session World) :
  match _find_prompt s with
  | (Ok prompt, s1) =>
      fst (_set_base_prompt (with_delimiters openers closers) s)
      = Ok (PyStr.slice_1_m1 prompt)
  | (Raise e, s1) =>
      _set_base_prompt (with_delimiters openers closers) s = (Raise e, s1)
  end.
Proof.
  destruct (_find_prompt s) as [[prompt|e] s1] eqn:F.
  - now rewrite (set_base_prompt_run _ s s1 prompt _ F
                   (build_pattern_text openers closers prompt)).
  - now apply set_base_prompt_raises.
Qed.

(** C9, amended. The hostname and the delimiters are escaped, so that
    every character of them stands for itself, but the delimiters are
    joined with a bar inside the brackets.  With delimiter lists whose
    joined text is not empty, the pattern of the session compiles, and
    [re.search] finds it in exactly the strings that contain: one
    character of the joined openers (a character of an opener, or the bar
    when there are two openers or more), the first 12 characters of
    the stripped prompt, any number of hyphens and word characters, and
    one character of the joined closers. *)
Theorem base_pattern_matches_exactly
        (openers closers : list string) (s0 s1 : Session World)
        (prompt subject : string) :
  PyStr.join "|" openers <> "" ->
  PyStr.join "|" closers <> "" ->
  _find_prompt s0 = (Ok prompt, s1) ->
  exists b : bool,
    Re.search
      (_base_pattern (snd (_set_base_prompt (with_delimiters openers closers) s0)))
      subject = Some b
    /\ (b = true <->
        prompt_like (PyStr.join "|" openers)
                    (PyStr.slice_to 12 (PyStr.slice_1_m1 prompt))
                    (PyStr.join "|" closers) subject).
Proof.
  intros NL NR F.
  rewrite (set_base_prompt_run _ s0 s1 prompt _ F
             (build_pattern_text openers closers prompt)).
  cbn [snd _base_pattern]. rewrite search_pattern_text by assumption.
  eexists. split; [reflexivity|]. apply search_prompt_regex.
Qed.

(** C10. On a session of the class with its own delimiters, whatever
    prompt was found, the bar of the join stands inside both bracketed sets
    of the pattern.  The pattern therefore matches the first 12 characters
    of the stripped prompt put between two bars; and it matches the whole
    stripped prompt between two bars when the characters after the
    twelfth are hyphens or word characters, as for every name of 12
    characters or fewer. *)
Theorem base_pattern_matches_bars
        (s0 s1 : Session World) (prompt : string) :
  _find_prompt s0 = (Ok prompt, s1) ->
  let pattern := _base_pattern (snd (_set_base_prompt ComwareLikeDevice s0)) in
  let h := PyStr.slice_1_m1 prompt in
  pattern = "[<|\[]" ++ PyStr.escape (PyStr.slice_to 12 h) ++ "[\-\w]*[>|\]]"
  /\ Re.search pattern ("|" ++ PyStr.slice_to 12 h ++ "|") = Some true
  /\ (PyStr.all_chars Re.hyphen_or_word (PyStr.slice_from 12 h) = true ->
      Re.search pattern ("|" ++ h ++ "|") = Some true)
  /\ (String.length h <= 12 -> Re.search pattern ("|" ++ h ++ "|") = Some true).
Proof.
  intros F pattern h. subst pattern.
  change ComwareLikeDevice with (with_delimiters ["<"; "["] [">"; "]"]).
  rewrite (set_base_prompt_run _ s0 s1 prompt _ F
             (build_pattern_text ["<"; "["] [">"; "]"] prompt)).
  cbn [snd _base_pattern]. fold h.
  split; [reflexivity|].
  assert (forall suf,
             PyStr.all_chars Re.hyphen_or_word suf = true ->
             Re.search (pattern_text ["<"; "["] [">"; "]"] (PyStr.slice_to 12 h))
                       ("|" ++ (PyStr.slice_to 12 h ++ suf) ++ "|") = Some true)
    as Bars.
  { intros suf S. rewrite search_pattern_text by discriminate.
    f_equal. apply search_prompt_regex.
    exists "", "|"%char, suf, "|"%char, "". repeat split; trivial.
    simpl. now rewrite append_assoc. }
  assert (PyStr.all_chars Re.hyphen_or_word (PyStr.slice_from 12 h) = true ->
          Re.search (pattern_text ["<"; "["] [">"; "]"] (PyStr.slice_to 12 h))
                    ("|" ++ h ++ "|") = Some true) as Tail.
  { intros S. specialize (Bars _ S). now rewrite <- slice_to_from in Bars. }
  split; [|split].
  - specialize (Bars "" eq_refl). now rewrite append_nil_r in Bars.
  - exact Tail.
  - intros L. apply Tail. now rewrite (slice_from_short 12 h L).
Qed.

(** C2, amended. For a prompt made of an opener character, a hostname and
    a closer character, [_set_base_prompt] returns the whole hostname and
    keeps the whole hostname as the base prompt; only the pattern is cut
    to the first 12 characters of the hostname.  The pattern matches the
    prompt whenever the characters of the hostname after the twelfth are
    hyphens or word characters, which covers every hostname of 12
    characters or fewer. *)
Theorem set_base_prompt_delimited
        (openers closers : list string) (d1 d2 : ascii) (h : string)
        (s0 s1 : Session World) :
  In (String d1 "") openers ->
  In (String d2 "") closers ->
  _find_prompt s0 = (Ok (String d1 (h ++ String d2 "")), s1) ->
  let run := _set_base_prompt (with_delimiters openers closers) s0 in
  fst run = Ok h
  /\ _base_prompt (snd run) = h
  /\ _base_pattern (snd run)
     = pattern_text openers closers (PyStr.slice_to 12 h)
  /\ (PyStr.all_chars Re.hyphen_or_word (PyStr.slice_from 12 h) = true ->
      Re.search (_base_pattern (snd run)) (String d1 (h ++ String d2 ""))
      = Some true)
  /\ (String.length h <= 12 ->
      Re.search (_base_pattern (snd run)) (String d1 (h ++ String d2 ""))
      = Some true).
Proof.
  intros I1 I2 F run. subst run.
  rewrite (set_base_prompt_run _ s0 s1 _ _ F
             (build_pattern_text openers closers _)).
  rewrite slice_1_m1_delimited. cbn [fst snd _base_prompt _base_pattern].
  pose proof (mem_char_join d1 openers I1) as M1.
  pose proof (mem_char_join d2 closers I2) as M2.
  assert (PyStr.all_chars Re.hyphen_or_word (PyStr.slice_from 12 h) = true ->
          Re.search (pattern_text openers closers (PyStr.slice_to 12 h))
                    (String d1 (h ++ String d2 "")) = Some true) as Match.
  { intros S.
    rewrite search_pattern_text by (eapply mem_char_nonempty; eassumption).
    f_equal. apply search_prompt_regex.
    exists "", d1, (PyStr.slice_from 12 h), d2, "". repeat split; trivial.
    simpl. now rewrite <- append_assoc, <- slice_to_from. }
  repeat split; trivial.
  intros L. apply Match. now rewrite (slice_from_short 12 h L).
Qed.

End PatternClaims.

(** ** Patterns on the simulated device *)

(** C2, as stated, fails on a hostname of 17 characters with a dot after
    the twelfth: the base prompt is the whole hostname, not its first 12
    characters, and the pattern does not match the raw prompt. *)
Lemma set_base_prompt_long_hostname :
  let s0 := Sim.connect "switch-core-1.lab" true true in
  let run := _set_base_prompt ComwareLikeDevice s0 in
  fst (_find_prompt s0) = Ok "<switch-core-1.lab>"
  /\ fst run = Ok "switch-core-1.lab"
  /\ _base_prompt (snd run) = "switch-core-1.lab"
  /\ _base_prompt (snd run) <> PyStr.slice_to 12 "switch-core-1.lab"
  /\ _base_pattern (snd run) = "[<|\[]switch\-core\-[\-\w]*[>|\]]"
  /\ Re.search (_base_pattern (snd run)) "<switch-core-1.lab>" = Some false.
Proof.
  vm_compute. repeat split. discriminate.
Qed.

(** The prompt of a simulated device named [sw1]. *)
Lemma set_base_prompt_delimited_witness :
  let s0 := Sim.connect "sw1" true true in
  let run := _set_base_prompt ComwareLikeDevice s0 in
  In "<" ["<"; "["]
  /\ In ">" [">"; "]"]
  /\ _find_prompt s0 = (Ok "<sw1>", snd (_find_prompt s0))
  /\ fst run = Ok "sw1"
  /\ _base_prompt (snd run) = "sw1"
  /\ _base_pattern (snd run) = "[<|\[]sw1[\-\w]*[>|\]]"
  /\ Re.search (_base_pattern (snd run)) "<sw1>" = Some true.
Proof.
  split; [now left|]. split; [now left|].
  assert (_find_prompt (Sim.connect "sw1" true true)
          = (Ok "<sw1>", snd (_find_prompt (Sim.connect "sw1" true true)))) as F
      by reflexivity.
  split; [exact F|].
  destruct (set_base_prompt_delimited ["<"; "["] [">"; "]"] "<" ">" "sw1"
              (Sim.connect "sw1" true true) _
              (or_introl eq_refl) (or_introl eq_refl) F)
    as [R [P [T [M _]]]].
  split; [exact R|]. split; [exact P|]. split; [exact T|].
  exact (M eq_refl).
Defined.

(** C5, as stated, fails: with two openers and one closer the pattern is
    built and the base prompt returned; no exception is raised. *)
Lemma set_base_prompt_unequal_lengths :
  let openers := ["<"; "["] in
  let closers := [">"] in
  let run := _set_base_prompt (with_delimiters openers closers)
               (Sim.connect "sw1" true true) in
  List.length openers <> List.length closers
  /\ fst run = Ok "sw1"
  /\ _base_pattern (snd run) = "[<|\[]sw1[\-\w]*[>]"
  /\ forall e, fst run <> Raise e.
Proof.
  vm_compute. repeat split; discriminate.
Qed.

(** C9, as stated, fails: for the hostname [sw.1] and the delimiters of the
    class the pattern matches a string in which the bar, which is neither
    an opener nor a closer, stands at both ends. *)
Lemma base_pattern_matches_bar_delimited :
  let run := _set_base_prompt ComwareLikeDevice (Sim.connect "sw.1" true true) in
  _base_pattern (snd run) = "[<|\[]sw\.1[\-\w]*[>|\]]"
  /\ Re.search (_base_pattern (snd run)) "|sw.1|" = Some true
  /\ ~ In "|" (_delimiter_left_list ComwareLikeDevice)
  /\ ~ In "|" (_delimiter_list ComwareLikeDevice).
Proof.
  vm_compute. repeat split.
  - intros [E|[E|[]]]; discriminate E.
  - intros [E|[E|[]]]; discriminate E.
Qed.

(** The pattern for the hostname [sw.1] and a string with another character in place of the dot. *)
Lemma base_pattern_matches_exactly_witness :
  let s0 := Sim.connect "sw.1" true true in
  PyStr.join "|" ["<"; "["] <> ""
  /\ PyStr.join "|" [">"; "]"] <> ""
  /\ _find_prompt s0 = (Ok "<sw.1>", snd (_find_prompt s0))
  /\ exists b : bool,
       Re.search (_base_pattern (snd (_set_base_prompt ComwareLikeDevice s0)))
                 "<swx1>" = Some b
       /\ (b = true <-> prompt_like "<|[" "sw.1" ">|]" "<swx1>").
Proof.
  split; [discriminate|]. split; [discriminate|].
  assert (_find_prompt (Sim.connect "sw.1" true true)
          = (Ok "<sw.1>", snd (_find_prompt (Sim.connect "sw.1" true true)))) as F
      by reflexivity.
  split; [exact F|].
  refine (base_pattern_matches_exactly ["<"; "["] [">"; "]"]
            (Sim.connect "sw.1" true true) _ "<sw.1>" "<swx1>" _ _ F);
    discriminate.
Defined.

(** The pattern for the hostname [switch1] and that name between two bars. *)
Lemma base_pattern_matches_bars_witness :
  let s0 := Sim.connect "switch1" true true in
  _find_prompt s0 = (Ok "<switch1>", snd (_find_prompt s0))
  /\ String.length "switch1" <= 12
  /\ Re.search (_base_pattern (snd (_set_base_prompt ComwareLikeDevice s0)))
               "|switch1|" = Some true.
Proof.
  assert (_find_prompt (Sim.connect "switch1" true true)
          = (Ok "<switch1>", snd (_find_prompt (Sim.connect "switch1" true true))))
    as F by reflexivity.
  split; [exact F|]. split; [simpl; lia|].
  apply (proj2 (proj2 (proj2 (base_pattern_matches_bars
                                (Sim.connect "switch1" true true) _ "<switch1>" F)))).
  simpl; lia.
Defined.

(** The escaping itself works: the dot of [sw.1] matches a dot only. *)
Example escaped_dot_is_literal :
  let run := _set_base_prompt ComwareLikeDevice (Sim.connect "sw.1" true true) in
  Re.search (_base_pattern (snd run)) "<swx1>" = Some false
  /\ Re.search (_base_pattern (snd run)) "[sw.1-vlan10]" = Some true.
Proof. vm_compute. split; reflexivity. Qed.

(** The scenario of a device named [switch1]: the base prompt is the
    hostname and the pattern matches the prompt of either view. *)
Example switch1_scenario :
  let run := _set_base_prompt ComwareLikeDevice (Sim.connect "switch1" true true) in
  fst run = Ok "switch1"
  /\ _base_pattern (snd run) = "[<|\[]switch1[\-\w]*[>|\]]"
  /\ Re.search (_base_pattern (snd run)) "<switch1>" = Some true
  /\ Re.search (_base_pattern (snd run)) "[switch1]" = Some true.
Proof. vm_compute. repeat split. Qed.

(** With no delimiters at all [_set_base_prompt] still builds its text, but
    the text is not a regular expression: the first bracket is never
    closed. *)
Example no_delimiters_pattern :
  let run := _set_base_prompt (with_delimiters [] []) (Sim.connect "sw1" true true) in
  fst run = Ok "sw1"
  /\ _base_pattern (snd run) = "[]sw1[\-\w]*[]"
  /\ Re.compile (_base_pattern (snd run)) = None.
Proof. vm_compute. repeat split. Qed.

(** A healthy device: the commands are delivered between entering and
    leaving system view, and the device ends in user view. *)
Example healthy_round_trip :
  let run := send_config_set ComwareLikeDevice (Some ["vlan 10"]) true
               (Sim.connect "sw1" true true) in
  fst run
  = Ok ("system-view" ++ PyStr.LF ++ "[sw1]" ++ "vlan 10" ++ PyStr.LF ++ "[sw1]"
        ++ "return" ++ PyStr.LF ++ "<sw1>")
  /\ Sim.in_system_view (dev (snd run)) = false
  /\ List.length (writes (snd run)) = 7.
Proof. vm_compute. repeat split. Qed.

Example escape_example :
  PyStr.escape "sw.1*-a_b c<>" = "sw\.1\*\-a_b\ c<>".
Proof. reflexivity. Qed.


(** * Further properties of the mode methods *)

Section ModePaths.
Context {World : Type} `{BaseDevice World}.
Variable cls : DeviceClass.

Lemma bind_exchange {A : Type} (text : string) (k : string -> M World A)
      (s : Session World) :
  bind (write text) (fun _ => bind _read_until_prompt k) s
  = match read_until_prompt (stdin_write text (dev s)) with
    | (Ok x, w) => k x (moved s w [Wrote text; ReadUnit (Ok x)])
    | (Raise e, w) => (Raise e, moved s w [Wrote text; ReadUnit (Raise e)])
    end.
Proof.
  unfold bind, write, _read_until_prompt. cbn [dev moved].
  destruct (read_until_prompt (stdin_write text (dev s))) as [[x|e] w];
    rewrite moved_moved; reflexivity.
Qed.

Lemma bind_check {A : Type} (k : bool -> M World A) (s : Session World) :
  bind (_check_system_view cls) k s
  = match read_until_prompt (stdin_write blank_line (dev s)) with
    | (Ok x, w) =>
        k (PyStr.contains (_system_view_check cls) x)
          (moved s w [Wrote blank_line; ReadUnit (Ok x)])
    | (Raise e, w) =>
        (Raise e, moved s w [Wrote blank_line; ReadUnit (Raise e)])
    end.
Proof.
  unfold bind at 1.
  destruct (read_until_prompt (stdin_write blank_line (dev s))) as [r w] eqn:E.
  rewrite (check_system_view_run cls s r w E). now destruct r.
Qed.

Ltac next_read :=
  match goal with
  | |- context [read_until_prompt ?x] =>
      destruct (read_until_prompt x) as [[?t|?e] ?w]
  end.

Ltac path_leaf :=
  unfold ret, raise; rewrite ?moved_moved; cbn [app];
  do 3 eexists; split; [reflexivity|].

(** Every run of [_system_view] goes one of the six ways. *)
Lemma system_view_paths (s : Session World) :
  exists r w evs,
    _system_view cls s = (r, moved s w evs)
    /\ transition_path (_system_view_check cls)
         (_normalize_cmd (_system_view_enter cls)) blank_line
         "Failed to enter to system view" true r evs.
Proof.
  unfold _system_view. rewrite bind_check. next_read.
  - destruct (PyStr.contains (_system_view_check cls) t) eqn:C1; cbn [negb].
    + path_leaf. now apply path_already_there.
    + rewrite bind_exchange. cbn [dev moved]. next_read.
      * rewrite bind_check. cbn [dev moved]. next_read.
        -- destruct (PyStr.contains (_system_view_check cls) t1) eqn:C3;
             cbn [negb]; path_leaf.
           ++ now apply path_verified.
           ++ now apply path_not_verified.
        -- path_leaf. now apply path_verification_raised.
      * path_leaf. now apply path_command_raised.
  - path_leaf. apply path_probe_raised.
Qed.

(** Every run of [_exit_system_view] goes one of the six ways. *)
Lemma exit_system_view_paths (s : Session World) :
  exists r w evs,
    _exit_system_view cls s = (r, moved s w evs)
    /\ transition_path (_system_view_check cls)
         (_normalize_cmd (_system_view_exit cls)) blank_line
         "Failed to exit from system view" false r evs.
Proof.
  unfold _exit_system_view. rewrite bind_check. next_read.
  - destruct (PyStr.contains (_system_view_check cls) t) eqn:C1.
    + rewrite bind_exchange. cbn [dev moved]. next_read.
      * rewrite bind_check. cbn [dev moved]. next_read.
        -- destruct (PyStr.contains (_system_view_check cls) t1) eqn:C3;
             path_leaf.
           ++ now apply path_not_verified.
           ++ now apply path_verified.
        -- path_leaf. now apply path_verification_raised.
      * path_leaf. now apply path_command_raised.
    + path_leaf. now apply path_already_there.
  - path_leaf. apply path_probe_raised.
Qed.

End ModePaths.

(** ** What the six ways have in common *)


Lemma path_success (check cmd blank failure : string) (target : bool)
      (out : string) (evs : list event) :
  transition_path check cmd blank failure target (Ok out) evs ->
  exists pre t,
    evs = (pre ++ [Wrote blank; ReadUnit (Ok t)])%list
    /\ PyStr.contains check t = target.
Proof.
  intros P. inversion P; subst.
  - now exists [], t1.
  - now exists [Wrote blank; ReadUnit (Ok t1); Wrote cmd; ReadUnit (Ok out)], t3.
Qed.


Lemma same_attributes_moved {World : Type} (s : Session World) (w : World)
      (evs : list event) :
  same_attributes s (moved s w evs).
Proof. repeat split. Qed.

Section ModeGuarantees.
Context {World : Type} `{BaseDevice World}.
Variable cls : DeviceClass.



(** X3. When [_system_view] returns, the last thing on the channel was a
    probe whose text holds the check string: a return means that the
    device was seen in system view. *)
Theorem system_view_success_is_verified (s : Session World) (out : string) :
  fst (_system_view cls s) = Ok out ->
  exists w pre t,
    snd (_system_view cls s)
    = moved s w (pre ++ [Wrote blank_line; ReadUnit (Ok t)])%list
    /\ PyStr.contains (_system_view_check cls) t = true.
Proof.
  destruct (system_view_paths cls s) as [r [w [evs [E P]]]].
  rewrite E. cbn [fst snd]. intros ->.
  destruct (path_success _ _ _ _ _ _ _ P) as [pre [t [-> C]]].
  now exists w, pre, t.
Qed.

(** X4. When [_exit_system_view] returns, the last thing on the channel
    was a probe whose text does not hold the check string: a return means
    that the device was seen in user view. *)
Theorem exit_system_view_success_is_verified (s : Session World) (out : string) :
  fst (_exit_system_view cls s) = Ok out ->
  exists w pre t,
    snd (_exit_system_view cls s)
    = moved s w (pre ++ [Wrote blank_line; ReadUnit (Ok t)])%list
    /\ PyStr.contains (_system_view_check cls) t = false.
Proof.
  destruct (exit_system_view_paths cls s) as [r [w [evs [E P]]]].
  rewrite E. cbn [fst snd]. intros ->.
  destruct (path_success _ _ _ _ _ _ _ P) as [pre [t [-> C]]].
  now exists w, pre, t.
Qed.



(** X7. [send_config_set] stops at the first stage that raises.  An
    exception of [_system_view] is the outcome and nothing is delivered; an
    exception of the inherited delivery is the outcome and the session is
    the one the delivery left, so that no exit is tried; an exception of
    [_exit_system_view] is the outcome, after the delivery took place. *)
Theorem send_config_set_stops_at_first_failure
        (commands : list string) (exit_after : bool) (s : Session World) :
  (forall e s1,
      _system_view cls s = (Raise e, s1) ->
      send_config_set cls (Some commands) exit_after s = (Raise e, s1))
  /\ (forall o1 s1 e s2,
         _system_view cls s = (Ok o1, s1) ->
         super_send_config_set (Some commands) s1 = (Raise e, s2) ->
         send_config_set cls (Some commands) exit_after s = (Raise e, s2))
  /\ (forall o1 s1 o2 s2 e s3,
         _system_view cls s = (Ok o1, s1) ->
         super_send_config_set (Some commands) s1 = (Ok o2, s2) ->
         _exit_system_view cls s2 = (Raise e, s3) ->
         send_config_set cls (Some commands) true s = (Raise e, s3)).
Proof.
  unfold send_config_set, bind. repeat split.
  - intros e s1 ->. reflexivity.
  - intros o1 s1 e s2 -> ->. reflexivity.
  - intros o1 s1 o2 s2 e s3 -> -> ->. reflexivity.
Qed.

(** X8. When [send_config_set] is given a list of commands and
    [exit_system_view] set, and returns, the last thing on the channel was
    a probe whose text does not hold the check string: a return means that
    the device was seen back in user view. *)
Theorem send_config_set_success_ends_in_user_view
        (commands : list string) (s : Session World) (out : string) :
  fst (send_config_set cls (Some commands) true s) = Ok out ->
  exists w pre t,
    snd (send_config_set cls (Some commands) true s)
    = moved s w (pre ++ [Wrote blank_line; ReadUnit (Ok t)])%list
    /\ PyStr.contains (_system_view_check cls) t = false.
Proof.
  unfold send_config_set, bind.
  destruct (system_view_paths cls s) as [r1 [w1 [e1 [E1 _]]]]. rewrite E1.
  destruct r1 as [o1|x1]; [|discriminate].
  unfold super_send_config_set, on_channel. cbn [dev moved].
  destruct (base_send_config_set (Some commands) w1) as [[o2|x2] [w2 e2]];
    [|discriminate].
  rewrite moved_moved.
  destruct (exit_system_view_paths cls (moved s w2 (e1 ++ e2)))
    as [r3 [w3 [e3 [E3 P3]]]]. rewrite E3.
  destruct r3 as [o3|x3]; [|discriminate]. intros _.
  destruct (path_success _ _ _ _ _ _ _ P3) as [pre [t [-> C]]].
  exists w3, ((e1 ++ e2) ++ pre)%list, t. split; [|exact C].
  unfold ret. cbn [snd]. now rewrite moved_moved, app_assoc.
Qed.

(** X9. The probe and the two changes of view leave the attributes of the
    session ([_host], [_base_prompt], [_base_pattern]) as they found them,
    whatever the device answers. *)
Theorem mode_methods_keep_attributes (s : Session World) :
  same_attributes s (snd (_check_system_view cls s))
  /\ same_attributes s (snd (_system_view cls s))
  /\ same_attributes s (snd (_exit_system_view cls s)).
Proof.
  split; [|split].
  - destruct (check_system_view_extends cls s) as [w [evs ->]].
    apply same_attributes_moved.
  - destruct (system_view_paths cls s) as [r [w [evs [-> _]]]].
    apply same_attributes_moved.
  - destruct (exit_system_view_paths cls s) as [r [w [evs [-> _]]]].
    apply same_attributes_moved.
Qed.

End ModeGuarantees.

(** ** The mode methods on the simulated devices *)

(** Entering system view on a healthy simulated device. *)
Lemma system_view_success_is_verified_witness :
  let s := Sim.connect "sw1" true true in
  let out := "system-view" ++ PyStr.LF ++ "[sw1]" in
  fst (_system_view ComwareLikeDevice s) = Ok out
  /\ exists w pre t,
       snd (_system_view ComwareLikeDevice s)
       = moved s w (pre ++ [Wrote blank_line; ReadUnit (Ok t)])%list
       /\ PyStr.contains "]" t = true.
Proof.
  assert (fst (_system_view ComwareLikeDevice (Sim.connect "sw1" true true))
          = Ok ("system-view" ++ PyStr.LF ++ "[sw1]")) as F by reflexivity.
  split; [exact F|].
  exact (system_view_success_is_verified ComwareLikeDevice _ _ F).
Defined.

(** Leaving system view on a healthy simulated device. *)
Lemma exit_system_view_success_is_verified_witness :
  let s := Sim.connect_in_system_view "sw1" in
  let out := "return" ++ PyStr.LF ++ "<sw1>" in
  fst (_exit_system_view ComwareLikeDevice s) = Ok out
  /\ exists w pre t,
       snd (_exit_system_view ComwareLikeDevice s)
       = moved s w (pre ++ [Wrote blank_line; ReadUnit (Ok t)])%list
       /\ PyStr.contains "]" t = false.
Proof.
  assert (fst (_exit_system_view ComwareLikeDevice (Sim.connect_in_system_view "sw1"))
          = Ok ("return" ++ PyStr.LF ++ "<sw1>")) as F by reflexivity.
  split; [exact F|].
  exact (exit_system_view_success_is_verified ComwareLikeDevice _ _ F).
Defined.



(** Two commands on a connection that drops during the delivery: the
    second command is written, its answer never comes, and the device is
    left in system view without an exit command. *)
Lemma send_config_set_stops_at_first_failure_witness :
  let s := Flaky.connect 4 "sw1" false in
  let after_enter := snd (_system_view ComwareLikeDevice s) in
  let after_delivery :=
    snd (super_send_config_set (Some ["vlan 10"; "quit"]) after_enter) in
  _system_view ComwareLikeDevice s
  = (Ok ("system-view" ++ PyStr.LF ++ "[sw1]"), after_enter)
  /\ super_send_config_set (Some ["vlan 10"; "quit"]) after_enter
     = (Raise (TransportError "timeout"), after_delivery)
  /\ send_config_set ComwareLikeDevice (Some ["vlan 10"; "quit"]) true s
     = (Raise (TransportError "timeout"), after_delivery)
  /\ Sim.in_system_view (Flaky.inner (dev after_delivery)) = true
  /\ ~ In (Wrote ("return" ++ PyStr.LF)) (trace after_delivery).
Proof.
  assert (_system_view ComwareLikeDevice (Flaky.connect 4 "sw1" false)
          = (Ok ("system-view" ++ PyStr.LF ++ "[sw1]"),
             snd (_system_view ComwareLikeDevice (Flaky.connect 4 "sw1" false))))
    as E1 by reflexivity.
  assert (super_send_config_set (Some ["vlan 10"; "quit"])
            (snd (_system_view ComwareLikeDevice (Flaky.connect 4 "sw1" false)))
          = (Raise (TransportError "timeout"),
             snd (super_send_config_set (Some ["vlan 10"; "quit"])
                    (snd (_system_view ComwareLikeDevice
                            (Flaky.connect 4 "sw1" false))))))
    as E2 by reflexivity.
  split; [exact E1|]. split; [exact E2|]. split.
  - exact (proj1 (proj2 (send_config_set_stops_at_first_failure
                           ComwareLikeDevice ["vlan 10"; "quit"] true
                           (Flaky.connect 4 "sw1" false)))
                 _ _ _ _ E1 E2).
  - split; [reflexivity|]. vm_compute.
    intros I. repeat (destruct I as [I|I]; [discriminate I|]). exact I.
Defined.

(** One command on a healthy simulated device, with the exit asked for. *)
Lemma send_config_set_success_ends_in_user_view_witness :
  let s := Sim.connect "sw1" true true in
  let out := "system-view" ++ PyStr.LF ++ "[sw1]" ++ "vlan 10" ++ PyStr.LF
             ++ "[sw1]" ++ "return" ++ PyStr.LF ++ "<sw1>" in
  fst (send_config_set ComwareLikeDevice (Some ["vlan 10"]) true s) = Ok out
  /\ exists w pre t,
       snd (send_config_set ComwareLikeDevice (Some ["vlan 10"]) true s)
       = moved s w (pre ++ [Wrote blank_line; ReadUnit (Ok t)])%list
       /\ PyStr.contains "]" t = false.
Proof.
  assert (fst (send_config_set ComwareLikeDevice (Some ["vlan 10"]) true
                 (Sim.connect "sw1" true true))
          = Ok ("system-view" ++ PyStr.LF ++ "[sw1]" ++ "vlan 10" ++ PyStr.LF
                ++ "[sw1]" ++ "return" ++ PyStr.LF ++ "<sw1>")) as F
      by reflexivity.
  split; [exact F|].
  exact (send_config_set_success_ends_in_user_view ComwareLikeDevice _ _ _ F).
Defined.

(** * Further properties of the pattern *)

Lemma search_delimited (openers closers : list string) (h : string)
      (o c : ascii) (rest : string) :
  PyStr.mem_char o (PyStr.join "|" openers) = true ->
  PyStr.mem_char c (PyStr.join "|" closers) = true ->
  PyStr.all_chars Re.hyphen_or_word rest = true ->
  Re.search (pattern_text openers closers h) (String o ((h ++ rest) ++ String c ""))
  = Some true.
Proof.
  intros Mo Mc W.
  rewrite search_pattern_text by (eapply mem_char_nonempty; eassumption).
  f_equal. apply search_prompt_regex.
  exists "", o, rest, c, "". repeat split; trivial.
  simpl. now rewrite append_assoc.
Qed.

Lemma slice_1_m1_short (prompt : string) :
  String.length prompt <= 2 -> PyStr.slice_1_m1 prompt = "".
Proof.
  unfold PyStr.slice_1_m1.
  destruct prompt as [|a [|b [|c p]]]; simpl; intros L; try reflexivity; lia.
Qed.

Section PatternGuarantees.
Context {World : Type} `{BaseDevice World}.

(** X10. The pattern does not depend on the view in which the prompt was
    found: built from a prompt with any first and last character around
    the hostname, it matches the hostname between any opener character and
    any closer character, with any run of hyphens and word characters
    after the hostname, provided the characters of the hostname after the
    twelfth are hyphens or word characters too. *)
Theorem base_pattern_matches_either_view
        (openers closers : list string) (d1 d2 o c : ascii) (h suffix : string)
        (s0 s1 : Session World) :
  _find_prompt s0 = (Ok (String d1 (h ++ String d2 "")), s1) ->
  In (String o "") openers ->
  In (String c "") closers ->
  PyStr.all_chars Re.hyphen_or_word (PyStr.slice_from 12 h ++ suffix) = true ->
  Re.search
    (_base_pattern (snd (_set_base_prompt (with_delimiters openers closers) s0)))
    (String o ((h ++ suffix) ++ String c ""))
  = Some true.
Proof.
  intros F Io Ic W.
  rewrite (set_base_prompt_run _ s0 s1 _ _ F
             (build_pattern_text openers closers _)).
  rewrite slice_1_m1_delimited. cbn [snd _base_pattern].
  replace (String o ((h ++ suffix) ++ String c ""))
    with (String o ((PyStr.slice_to 12 h ++ (PyStr.slice_from 12 h ++ suffix))
                    ++ String c ""))
    by (now rewrite <- append_assoc, <- slice_to_from).
  apply search_delimited; auto using mem_char_join.
Qed.

(** X11. Only the first 12 characters of the hostname enter the pattern:
    the pattern of a session matches the delimited prompt of every other
    hostname that has the same first 12 characters and only hyphens and
    word characters after them. *)
Theorem base_pattern_same_prefix
        (openers closers : list string) (d1 d2 o c : ascii) (h g : string)
        (s0 s1 : Session World) :
  _find_prompt s0 = (Ok (String d1 (h ++ String d2 "")), s1) ->
  In (String o "") openers ->
  In (String c "") closers ->
  PyStr.slice_to 12 g = PyStr.slice_to 12 h ->
  PyStr.all_chars Re.hyphen_or_word (PyStr.slice_from 12 g) = true ->
  Re.search
    (_base_pattern (snd (_set_base_prompt (with_delimiters openers closers) s0)))
    (String o (g ++ String c ""))
  = Some true.
Proof.
  intros F Io Ic P W.
  rewrite (set_base_prompt_run _ s0 s1 _ _ F
             (build_pattern_text openers closers _)).
  rewrite slice_1_m1_delimited. cbn [snd _base_pattern].
  replace (String o (g ++ String c ""))
    with (String o ((PyStr.slice_to 12 h ++ PyStr.slice_from 12 g) ++ String c ""))
    by (now rewrite <- P, <- slice_to_from).
  apply search_delimited; auto using mem_char_join.
Qed.


(** X13. A prompt of two characters or fewer leaves no hostname: the base
    prompt is empty, and the pattern then matches any run of hyphens and
    word characters between an opener and a closer character, whatever
    device it comes from. *)
Theorem set_base_prompt_short_prompt
        (openers closers : list string) (prompt : string) (o c : ascii)
        (g : string) (s0 s1 : Session World) :
  _find_prompt s0 = (Ok prompt, s1) ->
  String.length prompt <= 2 ->
  In (String o "") openers ->
  In (String c "") closers ->
  PyStr.all_chars Re.hyphen_or_word g = true ->
  let run := _set_base_prompt (with_delimiters openers closers) s0 in
  fst run = Ok ""
  /\ _base_prompt (snd run) = ""
  /\ Re.search (_base_pattern (snd run)) (String o (g ++ String c "")) = Some true.
Proof.
  intros F L Io Ic W run. subst run.
  rewrite (set_base_prompt_run _ s0 s1 _ _ F
             (build_pattern_text openers closers _)).
  rewrite (slice_1_m1_short prompt L). cbn [fst snd _base_prompt _base_pattern].
  repeat split.
  change (PyStr.slice_to 12 "") with "".
  apply (search_delimited openers closers "" o c g); auto using mem_char_join.
Qed.

End PatternGuarantees.

Section WithoutExit.
Context {World : Type} `{BaseDevice World}.
Variable cls : DeviceClass.

(** X14. Without [exit_system_view] (the default) [send_config_set]
    writes nothing after the delivery: its traffic is that of
    [_system_view], followed, when [_system_view] returned, by that of the
    inherited delivery, and no exit command comes from it. *)
Theorem send_config_set_without_exit
        (commands : list string) (s : Session World) :
  exists w1 e1,
    snd (_system_view cls s) = moved s w1 e1
    /\ match fst (_system_view cls s) with
       | Raise _ =>
           snd (send_config_set cls (Some commands) false s) = moved s w1 e1
       | Ok _ =>
           let after := snd (base_send_config_set (Some commands) w1) in
           snd (send_config_set cls (Some commands) false s)
           = moved s (fst after) (e1 ++ snd after)
       end.
Proof.
  destruct (system_view_paths cls s) as [r1 [w1 [e1 [E1 _]]]].
  exists w1, e1. unfold send_config_set, bind. rewrite E1. cbn [fst snd].
  split; [reflexivity|]. destruct r1 as [o1|x1]; [|reflexivity].
  unfold super_send_config_set, on_channel. cbn [dev moved].
  destruct (base_send_config_set (Some commands) w1) as [[o2|x2] [w2 e2]];
    cbn [fst snd]; unfold ret; cbn [snd]; now rewrite moved_moved.
Qed.

End WithoutExit.

(** ** The pattern on the simulated device *)

(** The pattern found in user view matches the prompt of a sub-view of
    system view. *)
Lemma base_pattern_matches_either_view_witness :
  let s0 := Sim.connect "sw1" true true in
  _find_prompt s0 = (Ok "<sw1>", snd (_find_prompt s0))
  /\ In "[" ["<"; "["]
  /\ In "]" [">"; "]"]
  /\ PyStr.all_chars Re.hyphen_or_word (PyStr.slice_from 12 "sw1" ++ "-vlan10") = true
  /\ Re.search (_base_pattern (snd (_set_base_prompt ComwareLikeDevice s0)))
               "[sw1-vlan10]" = Some true.
Proof.
  assert (_find_prompt (Sim.connect "sw1" true true)
          = (Ok "<sw1>", snd (_find_prompt (Sim.connect "sw1" true true)))) as F
      by reflexivity.
  split; [exact F|]. split; [right; now left|]. split; [right; now left|].
  split; [reflexivity|].
  exact (base_pattern_matches_either_view ["<"; "["] [">"; "]"]
           "<" ">" "[" "]" "sw1" "-vlan10" (Sim.connect "sw1" true true) _
           F (or_intror (or_introl eq_refl)) (or_intror (or_introl eq_refl))
           eq_refl).
Defined.

(** Two switches whose names differ in the thirteenth character only. *)
Lemma base_pattern_same_prefix_witness :
  let s0 := Sim.connect "switch-core-1" true true in
  _find_prompt s0 = (Ok "<switch-core-1>", snd (_find_prompt s0))
  /\ In "<" ["<"; "["]
  /\ In ">" [">"; "]"]
  /\ PyStr.slice_to 12 "switch-core-2" = PyStr.slice_to 12 "switch-core-1"
  /\ PyStr.all_chars Re.hyphen_or_word (PyStr.slice_from 12 "switch-core-2") = true
  /\ Re.search (_base_pattern (snd (_set_base_prompt ComwareLikeDevice s0)))
               "<switch-core-2>" = Some true.
Proof.
  assert (_find_prompt (Sim.connect "switch-core-1" true true)
          = (Ok "<switch-core-1>",
             snd (_find_prompt (Sim.connect "switch-core-1" true true)))) as F
      by reflexivity.
  split; [exact F|]. split; [now left|]. split; [now left|].
  split; [reflexivity|]. split; [reflexivity|].
  exact (base_pattern_same_prefix ["<"; "["] [">"; "]"]
           "<" ">" "<" ">" "switch-core-1" "switch-core-2"
           (Sim.connect "switch-core-1" true true) _
           F (or_introl eq_refl) (or_introl eq_refl) eq_refl eq_refl).
Defined.


(** A device without a name: its prompt is the two delimiters. *)
Lemma set_base_prompt_short_prompt_witness :
  let s0 := Sim.connect "" true true in
  let run := _set_base_prompt ComwareLikeDevice s0 in
  _find_prompt s0 = (Ok "<>", snd (_find_prompt s0))
  /\ String.length "<>" <= 2
  /\ In "<" ["<"; "["]
  /\ In ">" [">"; "]"]
  /\ PyStr.all_chars Re.hyphen_or_word "other" = true
  /\ fst run = Ok ""
  /\ _base_prompt (snd run) = ""
  /\ Re.search (_base_pattern (snd run)) "<other>" = Some true.
Proof.
  assert (_find_prompt (Sim.connect "" true true)
          = (Ok "<>", snd (_find_prompt (Sim.connect "" true true)))) as F
      by reflexivity.
  split; [exact F|]. split; [simpl; lia|]. split; [now left|].
  split; [now left|]. split; [reflexivity|].
  refine (set_base_prompt_short_prompt ["<"; "["] [">"; "]"] "<>" "<" ">" "other"
            (Sim.connect "" true true) _ F _
            (or_introl eq_refl) (or_introl eq_refl) eq_refl).
  simpl; lia.
Defined.
